(** * A shallow embedding of the blog-post CRUD API

    The development follows the four source files of the repository:

    - [lib/utils/validation.ts]      -> module [Validation]
    - [lib/database/models/Post.ts]  -> module [Post]
    - [app/api/posts/route.ts]       -> module [Posts]
    - [app/api/posts/[id]/route.ts]  -> module [PostById]

    Handlers are functions from a [World] (the database seen through the
    object-document mapper, the clock, and the log of database accesses)
    to a [Response] and the next [World].  Exceptions of the JavaScript
    code are values of [Exn] threaded through a small state-and-error
    monad, so that [try]/[catch] blocks read as in the source. *)

From stdpp Require Import gmap strings list fin_maps.
From Stdlib Require Import ZArith Ascii.

Set Warnings "-register-all".
Open Scope string_scope.

(** ** JSON values, as [req.json()] yields them *)

(** A number keeps its literal: no handler ever computes with one. An
    object is the list of its own properties. *)
Inductive json :=
| JNull
| JBool (b : bool)
| JNumber (lit : string)
| JString (s : string)
| JArray (xs : list json)
| JObject (props : list (string * json)).

(** [data[key]]: [None] stands for [undefined]. *)
Fixpoint getProp (key : string) (props : list (string * json)) : option json :=
  match props with
  | [] => None
  | (k, v) :: rest => if String.eqb k key then Some v else getProp key rest
  end.

(** ** What the imported libraries decide

    [mongoose.Types.ObjectId.isValid], the [URL] constructor behind zod's
    [.url()], and the Date cast of the object-document mapper are library
    code.  The handlers are embedded over any behaviour of these. *)

Definition ObjectId := N.
Definition Date := Z.
Bind Scope N_scope with ObjectId.
Bind Scope Z_scope with Date.

Class Platform := {
  (** the ObjectId a string denotes, when the driver accepts it *)
  objectIdOf : string -> option ObjectId;
  objectIdOf_empty : objectIdOf "" = None;
  (** [new URL(s)] does not throw *)
  isUrl : string -> bool;
  isUrl_empty : isUrl "" = false;
  (** the Date a string is cast to, [None] when the cast fails *)
  castDate : string -> option Date;
  (** [timestamps: true] lets the mapper manage [createdAt] itself: when
      this holds an update's [createdAt] never reaches the document *)
  timestampsOwnCreatedAt : bool
}.

(** ** lib/utils/validation.ts *)

Module Validation.

Inductive IssueCode := invalid_type | too_small | invalid_string.

Record ZodIssue := {
  code : IssueCode;
  path : list string;
  message : string
}.

(** zod's [getParsedType] on a value that may be [undefined]. *)
Definition parsedType (o : option json) : string :=
  match o with
  | None => "undefined"
  | Some JNull => "null"
  | Some (JBool _) => "boolean"
  | Some (JNumber _) => "number"
  | Some (JString _) => "string"
  | Some (JArray _) => "array"
  | Some (JObject _) => "object"
  end.

Definition invalidType (expected : string) (p : list string) (o : option json)
  : ZodIssue :=
  {| code := invalid_type;
     path := p;
     message := match o with
                | None => "Required"
                | Some _ => "Expected " ++ expected ++ ", received " ++ parsedType o
                end |}.

(** The checks chained on [z.string()]. *)
Inductive StringCheck := min (n : nat) | url.

(** The inferred output type of [postSchema]. *)
Record PostInput := {
  author : string;
  title : string;
  description : string;
  imageUrl : string;
  createdAt : string
}.

Inductive SafeParseResult :=
| Success (data : PostInput)
| Failure (issues : list ZodIssue).

Section WithPlatform.
Context `{Platform}.

Definition runCheck (p : list string) (s : string) (c : StringCheck)
  : list ZodIssue :=
  match c with
  | min n =>
      if (String.length s <? n)%nat
      then [ {| code := too_small; path := p;
                message := "String must contain at least 1 character(s)" |} ]
      else []
  | url =>
      if isUrl s then []
      else [ {| code := invalid_string; path := p; message := "Invalid url" |} ]
  end.

(** [z.string()...] applied to the property [key] of the body. *)
Definition zString (checks : list StringCheck) (key : string)
           (props : list (string * json)) : list ZodIssue + string :=
  match getProp key props with
  | Some (JString s) =>
      match List.concat (map (runCheck [key] s) checks) with
      | [] => inr s
      | issues => inl issues
      end
  | o => inl [invalidType "string" [key] o]
  end.

Definition issuesOf (r : list ZodIssue + string) : list ZodIssue :=
  match r with inl issues => issues | inr _ => [] end.

(** [postSchema.safeParse(body)].  Every property is parsed, the
    issues of all of them are reported together, and properties
    outside the shape are dropped. *)
Definition safeParse (body : json) : SafeParseResult :=
  match body with
  | JObject props =>
      let a := zString [min 1] "author" props in
      let t := zString [min 1] "title" props in
      let d := zString [min 1] "description" props in
      let i := zString [url] "imageUrl" props in
      let c := zString [] "createdAt" props in
      match a, t, d, i, c with
      | inr a', inr t', inr d', inr i', inr c' =>
          Success {| author := a'; title := t'; description := d';
                     imageUrl := i'; createdAt := c' |}
      | _, _, _, _, _ =>
          Failure (issuesOf a ++ issuesOf t ++ issuesOf d ++ issuesOf i ++ issuesOf c)
      end
  | other => Failure [invalidType "object" [] (Some other)]
  end.

End WithPlatform.

End Validation.

Import Validation.

(** ** The world a request runs in *)

(** A stored document of the [Post] collection. [timestamps: true] adds
    [updatedAt] to the paths the schema declares. *)
Record Document := {
  _id : ObjectId;
  doc_author : string;
  doc_title : string;
  doc_description : string;
  doc_imageUrl : string;
  doc_createdAt : Date;
  doc_updatedAt : Date
}.

(** Every call that reaches for the database is logged: [Connect] is
    the acquisition of the connection, the others are document
    operations. *)
Inductive Access :=
| Connect
| Find
| FindById (id : string)
| Save (d : Document)
| FindByIdAndUpdate (id : string) (data : PostInput)
| FindByIdAndDelete (id : string).

Record World := {
  reachable : bool;                (* the database server answers *)
  connected : bool;                (* the process-wide connection handle is set *)
  posts : gmap ObjectId Document;  (* the "Post" collection *)
  clock : Date;                    (* Date.now() *)
  accesses : list Access           (* oldest first *)
}.

Definition logged (a : Access) (w : World) : World :=
  {| reachable := reachable w; connected := connected w; posts := posts w;
     clock := clock w; accesses := accesses w ++ [a] |}.

Definition withConnection (w : World) : World :=
  {| reachable := reachable w; connected := true; posts := posts w;
     clock := clock w; accesses := accesses w |}.

Definition withPosts (m : gmap ObjectId Document) (w : World) : World :=
  {| reachable := reachable w; connected := connected w; posts := m;
     clock := clock w; accesses := accesses w |}.

(** ** Asynchronous code that may throw *)

Inductive Exn :=
| SyntaxError                          (* req.json() on a body that is not JSON *)
| TypeError
| ZodError (issues : list ZodIssue)
| MongooseError (reason : string)
| CastError (pathName : string)
| ValidationError (pathName : string).

Definition Async (A : Type) : Type := World -> (Exn + A) * World.

Definition ret {A} (a : A) : Async A := fun w => (inr a, w).
Definition throw {A} (e : Exn) : Async A := fun w => (inl e, w).
Definition bind {A B} (m : Async A) (k : A -> Async B) : Async B :=
  fun w => match m w with
           | (inr a, w') => k a w'
           | (inl e, w') => (inl e, w')
           end.
Definition tryCatch {A} (m : Async A) (handler : Exn -> Async A) : Async A :=
  fun w => match m w with
           | (inr a, w') => (inr a, w')
           | (inl e, w') => handler e w'
           end.
Definition log (a : Access) : Async unit := fun w => (inr tt, logged a w).

Notation "x <- m ;; k" := (bind m (fun x => k))
  (at level 100, m at next level, right associativity).
Notation "m ;; k" := (bind m (fun _ => k))
  (at level 100, right associativity).

(** ** lib/database/database (not among the sources) *)

(** Modelled from the spec: [connectToDB] is missing from the sources.
    The spec calls the connection "a shared, lazily-initialized
    process-wide resource reused across requests": the first call opens
    it, which fails when the server is out of reach, and later calls
    reuse the handle. *)
Definition connectToDB : Async unit :=
  log Connect ;;
  fun w =>
    if connected w then (inr tt, w)
    else if reachable w then (inr tt, withConnection w)
    else (inl (MongooseError "connection failed"), w).

(** ** mongoose *)

Module mongoose.
Section WithPlatform.
Context `{Platform}.

(** [mongoose.Types.ObjectId.isValid(id)] on a string. *)
Definition isValid (id : string) : bool :=
  match objectIdOf id with Some _ => true | None => false end.

(** Operations issued before the connection is open are buffered and
    time out. *)
Definition requireConnection : Async unit :=
  fun w => if connected w then (inr tt, w)
           else (inl (MongooseError "buffering timed out"), w).

(** What the mapper makes of the [createdAt] of an update to the
    [Post] model: [Some None] when it is dropped, [Some (Some d)] when
    it is cast to the date [d], [None] when the cast fails. *)
Definition castCreatedAt (s : string) : option (option Date) :=
  if timestampsOwnCreatedAt then Some None
  else match castDate s with
       | Some d => Some (Some d)
       | None => None
       end.
End WithPlatform.
End mongoose.

(** ** lib/database/models/Post.ts *)

Module Post.

(** The object handed to [new Post(...)]. *)
Record Init := {
  author : string;
  title : string;
  description : string;
  imageUrl : string;
  createdAt : option Date
}.

(** [new Post(init)]: the driver picks an identifier no stored post
    has, and [createdAt] falls back on [default: Date.now]. *)
Definition new (init : Init) : Async Document :=
  fun w =>
    (inr {| _id := fresh (dom (posts w));
            doc_author := author init;
            doc_title := title init;
            doc_description := description init;
            doc_imageUrl := imageUrl init;
            doc_createdAt := default (clock w) (createdAt init);
            doc_updatedAt := clock w |}, w).

(** [required: true] on a String path rejects the empty string. *)
Definition required (pathName value : string) : Async unit :=
  if decide (value = "") then throw (ValidationError pathName) else ret tt.

Section WithPlatform.
Context `{Platform}.

Definition find : Async (list Document) :=
  log Find ;;
  mongoose.requireConnection ;;
  fun w => (inr (map snd (map_to_list (posts w))), w).

Definition findById (id : string) : Async (option Document) :=
  log (FindById id) ;;
  match objectIdOf id with
  | None => throw (CastError "_id")
  | Some oid =>
      mongoose.requireConnection ;;
      fun w => (inr (posts w !! oid), w)
  end.

(** [doc.save()] of a new document. *)
Definition save (d : Document) : Async unit :=
  log (Save d) ;;
  required "author" (doc_author d) ;;
  required "title" (doc_title d) ;;
  required "description" (doc_description d) ;;
  required "imageUrl" (doc_imageUrl d) ;;
  mongoose.requireConnection ;;
  fun w =>
    match posts w !! _id d with
    | Some _ => (inl (MongooseError "E11000 duplicate key"), w)
    | None => (inr tt, withPosts (<[_id d := d]> (posts w)) w)
    end.

(** [Post.findByIdAndUpdate(id, data, { new: true })]: the update is
    cast against the schema before the query is sent; validators do
    not run on updates; the document as updated is returned. *)
Definition findByIdAndUpdate (id : string) (data : PostInput)
  : Async (option Document) :=
  log (FindByIdAndUpdate id data) ;;
  match objectIdOf id, mongoose.castCreatedAt (Validation.createdAt data) with
  | None, _ => throw (CastError "_id")
  | Some _, None => throw (CastError "createdAt")
  | Some oid, Some created =>
      mongoose.requireConnection ;;
      fun w =>
        match posts w !! oid with
        | None => (inr None, w)
        | Some d =>
            let d' := {| _id := _id d;
                         doc_author := Validation.author data;
                         doc_title := Validation.title data;
                         doc_description := Validation.description data;
                         doc_imageUrl := Validation.imageUrl data;
                         doc_createdAt := default (doc_createdAt d) created;
                         doc_updatedAt := clock w |} in
            (inr (Some d'), withPosts (<[oid := d']> (posts w)) w)
        end
  end.

Definition findByIdAndDelete (id : string) : Async (option Document) :=
  log (FindByIdAndDelete id) ;;
  match objectIdOf id with
  | None => throw (CastError "_id")
  | Some oid =>
      mongoose.requireConnection ;;
      fun w => (inr (posts w !! oid), withPosts (delete oid (posts w)) w)
  end.

End WithPlatform.
End Post.

(** ** Requests and responses *)

Record NextRequest := {
  (** the body as [JSON.parse] reads it, [None] when it is not JSON *)
  parsedBody : option json
}.

Definition req_json (req : NextRequest) : Async json :=
  match parsedBody req with
  | Some body => ret body
  | None => throw SyntaxError
  end.

Record FieldError := {
  field : option string;      (* issue.path[0], possibly undefined *)
  fe_message : string
}.

Inductive Body :=
| Text (s : string)
| Error (error : string)
| ErrorDetails (error : string) (details : Exn)
| Errors (errors : list FieldError)
| IssueList (error : list ZodIssue)
| OnePost (post : Document)
| AllPosts (all : list Document)
| Updated (message : string) (post : Document)
| Deleted (message : string) (deletedPost : Document).

Record Response := {
  body : Body;
  status : Z
}.

Module NextResponse.
Definition json (b : Body) (s : Z) : Response := {| body := b; status := s |}.
End NextResponse.

(** ** app/api/posts/route.ts *)

Module Posts.
Section WithPlatform.
Context `{Platform}.

Definition GET : Async Response :=
  tryCatch
    (connectToDB ;;
     found <- Post.find ;;
     ret (NextResponse.json (AllPosts found) 200))
    (fun error =>
       ret (NextResponse.json (ErrorDetails "Failed to retrieve posts" error) 500)).

Definition POST (req : NextRequest) : Async Response :=
  tryCatch
    (body <- req_json req ;;
     match safeParse body with
     | Failure issues =>
         ret (NextResponse.json
                (Errors (map (fun issue => {| field := head (path issue);
                                              fe_message := message issue |})
                             issues))
                400)
     | Success data =>
         let author := Validation.author data in
         let title := Validation.title data in
         let description := Validation.description data in
         let imageUrl := Validation.imageUrl data in
         connectToDB ;;
         newPost <- Post.new {| Post.title := title;
                                Post.description := description;
                                Post.imageUrl := imageUrl;
                                Post.author := author;
                                Post.createdAt := None |} ;;
         Post.save newPost ;;
         ret (NextResponse.json (Text "Post has been created") 201)
     end)
    (fun error =>
       match error with
       | ZodError (issue :: _) =>
           ret (NextResponse.json (Error (message issue)) 400)
       | ZodError [] => throw TypeError
       | _ => ret (NextResponse.json (Error "Failed to create Post") 500)
       end).

End WithPlatform.
End Posts.

(** ** app/api/posts/[id]/route.ts *)

Module PostById.
Section WithPlatform.
Context `{Platform}.

Definition GET (id : string) : Async Response :=
  tryCatch
    (connectToDB ;;
     if negb (mongoose.isValid id)
     then ret (NextResponse.json (Error "Invalid ID format") 400)
     else
       post <- Post.findById id ;;
       match post with
       | None => ret (NextResponse.json (Text "Post not found") 404)
       | Some p => ret (NextResponse.json (OnePost p) 200)
       end)
    (fun error => ret (NextResponse.json (Error "Failed to fetch post") 500)).

Definition PUT (req : NextRequest) (id : string) : Async Response :=
  if negb (mongoose.isValid id)
  then ret (NextResponse.json (Error "Invalid ID format") 400)
  else
    tryCatch
      (body <- req_json req ;;
       match safeParse body with
       | Failure issues => ret (NextResponse.json (IssueList issues) 400)
       | Success data =>
           connectToDB ;;
           updatedPost <- Post.findByIdAndUpdate id data ;;
           match updatedPost with
           | None => ret (NextResponse.json (Error "Post not found") 404)
           | Some p =>
               ret (NextResponse.json (Updated "Post updated successfully" p) 200)
           end
       end)
      (fun error => ret (NextResponse.json (Error "Internal server error") 500)).

Definition DELETE (id : string) : Async Response :=
  if decide (id = "")
  then ret (NextResponse.json (Error "ID is required") 400)
  else
    tryCatch
      (connectToDB ;;
       if negb (mongoose.isValid id)
       then ret (NextResponse.json (Error "Invalid ID format") 400)
       else
         deletedPost <- Post.findByIdAndDelete id ;;
         match deletedPost with
         | None => ret (NextResponse.json (Error "Post not found") 404)
         | Some p =>
             ret (NextResponse.json (Deleted "Post deleted successfully" p) 200)
         end)
      (fun error => ret (NextResponse.json (Error "Internal server error") 500)).

End WithPlatform.
End PostById.

(** ** The API as a whole *)

Inductive Request :=
| ListPosts
| CreatePost (req : NextRequest)
| FetchPost (id : string)
| UpdatePost (req : NextRequest) (id : string)
| DeletePost (id : string).

(** What happens to the world over time: a request is served, the clock
    moves, the database server comes and goes, the connection drops. *)
Inductive Event :=
| Serve (r : Request)
| Tick (now : Date)
| Network (up : bool)
| Disconnect.

Definition available (w : World) : bool := connected w || reachable w.

Section Api.
Context `{Platform}.

Definition handler (r : Request) : Async Response :=
  match r with
  | ListPosts => Posts.GET
  | CreatePost req => Posts.POST req
  | FetchPost id => PostById.GET id
  | UpdatePost req id => PostById.PUT req id
  | DeletePost id => PostById.DELETE id
  end.

Definition step (w : World) (e : Event) : World :=
  match e with
  | Serve r => snd (handler r w)
  | Tick now =>
      {| reachable := reachable w; connected := connected w; posts := posts w;
         clock := now; accesses := accesses w |}
  | Network up =>
      {| reachable := up; connected := connected w; posts := posts w;
         clock := clock w; accesses := accesses w |}
  | Disconnect =>
      {| reachable := reachable w; connected := false; posts := posts w;
         clock := clock w; accesses := accesses w |}
  end.

Definition run (events : list Event) (w : World) : World :=
  foldl step w events.

(** The validator's constraints, read on a stored document. *)
Definition meetsConstraints (d : Document) : Prop :=
  doc_author d <> "" /\ doc_title d <> "" /\ doc_description d <> "" /\
  isUrl (doc_imageUrl d) = true.

Definition storeValid (w : World) : Prop :=
  map_Forall (fun _ d => meetsConstraints d) (posts w).

(** The handler answers [code] and has not touched the database. *)
Definition answersUntouched (code : Z) (h : Async Response) (w : World) : Prop :=
  exists resp w',
    h w = (inr resp, w') /\ status resp = code /\
    posts w' = posts w /\ accesses w' = accesses w.

(** The handler answers [code]. *)
Definition answers (code : Z) (h : Async Response) (w : World) : Prop :=
  exists resp w', h w = (inr resp, w') /\ status resp = code.

(** The properties [postSchema] requires, and the checks on each. *)
Definition requiredFields : list string :=
  ["author"; "title"; "description"; "imageUrl"; "createdAt"].

Definition shape : list (string * list StringCheck) :=
  [("author", [min 1]); ("title", [min 1]); ("description", [min 1]);
   ("imageUrl", [url]); ("createdAt", [])].

(** The document [POST] builds out of a validated payload. *)
Definition created (data : PostInput) (w : World) : Document :=
  {| _id := fresh (dom (posts w));
     doc_author := Validation.author data;
     doc_title := Validation.title data;
     doc_description := Validation.description data;
     doc_imageUrl := Validation.imageUrl data;
     doc_createdAt := clock w;
     doc_updatedAt := clock w |}.

(** The text fields of [d] are those of the payload. *)
Definition carries (data : PostInput) (d : Document) : Prop :=
  doc_author d = Validation.author data /\
  doc_title d = Validation.title data /\
  doc_description d = Validation.description data /\
  doc_imageUrl d = Validation.imageUrl data.

(** The creation date of [d] is the one the payload's string denotes. *)
Definition createdAtOf (data : PostInput) (d : Document) : Prop :=
  castDate (Validation.createdAt data) = Some (doc_createdAt d).

(** The update is answered 200 with the post as stored under [oid],
    every validated field taken from the payload. *)
Definition replacesAllFields (req : NextRequest) (id : string) (oid : ObjectId)
           (data : PostInput) (w : World) : Prop :=
  exists w' d,
    PostById.PUT req id w =
      (inr (NextResponse.json (Updated "Post updated successfully" d) 200), w') /\
    posts w' !! oid = Some d /\ carries data d /\ createdAtOf data d.

(** Accesses that write a post. *)
Definition isWrite (a : Access) : bool :=
  match a with
  | Save _ | FindByIdAndUpdate _ _ => true
  | _ => false
  end.

Definition payloadOf (r : Request) : option json :=
  match r with
  | CreatePost req | UpdatePost req _ => parsedBody req
  | _ => None
  end.

(** Serving [r] in [w] writes a post only out of a payload that passed
    the validator as a whole. *)
Definition validatedFirst (r : Request) (w : World) : Prop :=
  forall a, a ∈ accesses (snd (handler r w)) -> isWrite a = true ->
    a ∈ accesses w \/
    exists payload data,
      payloadOf r = Some payload /\ safeParse payload = Success data /\
      match a with
      | Save d => carries data d
      | FindByIdAndUpdate _ sent => sent = data
      | _ => False
      end.

End Api.

(** ** Sample library behaviour, to run the handlers on concrete input *)

Module Sample.

Definition hexDigit (c : ascii) : option N :=
  let n := N_of_ascii c in
  if (48 <=? n)%N && (n <=? 57)%N then Some (n - 48)%N
  else if (97 <=? n)%N && (n <=? 102)%N then Some (n - 87)%N
  else if (65 <=? n)%N && (n <=? 70)%N then Some (n - 55)%N
  else None.

Fixpoint hexValue (acc : N) (s : string) : option N :=
  match s with
  | EmptyString => Some acc
  | String c rest =>
      match hexDigit c with
      | Some d => hexValue (16 * acc + d)%N rest
      | None => None
      end
  end.

(** Twenty-four hexadecimal digits. *)
Definition hex24 (s : string) : option ObjectId :=
  if (String.length s =? 24)%nat then hexValue 0 s else None.

Definition isLetter (c : ascii) : bool :=
  let n := N_of_ascii c in
  ((97 <=? n)%N && (n <=? 122)%N) || ((65 <=? n)%N && (n <=? 90)%N).

Fixpoint schemeThenColon (s : string) : bool :=
  match s with
  | EmptyString => false
  | String c rest =>
      if Ascii.eqb c ":" then negb (String.eqb rest "")
      else isLetter c && schemeThenColon rest
  end.

(** A scheme of letters, a colon, and something after it. *)
Definition hasScheme (s : string) : bool :=
  match s with
  | EmptyString => false
  | String c _ => isLetter c && schemeThenColon s
  end.

(** Two instants, written the ISO way. *)
Definition isoDate (s : string) : option Date :=
  if String.eqb s "1970-01-01T00:00:00.000Z" then Some 0%Z
  else if String.eqb s "2023-01-01T00:00:00.000Z" then Some 1672531200000%Z
  else None.

(** A mapper that casts an update's [createdAt]. *)
Definition casting : Platform :=
  {| objectIdOf := hex24;
     objectIdOf_empty := eq_refl;
     isUrl := hasScheme;
     isUrl_empty := eq_refl;
     castDate := isoDate;
     timestampsOwnCreatedAt := false |}.

(** A mapper that keeps [createdAt] to itself. *)
Definition owning : Platform :=
  {| objectIdOf := hex24;
     objectIdOf_empty := eq_refl;
     isUrl := hasScheme;
     isUrl_empty := eq_refl;
     castDate := isoDate;
     timestampsOwnCreatedAt := true |}.

Definition at_ (now : Date) (up : bool) (stored : list Document) : World :=
  {| reachable := up; connected := false;
     posts := list_to_map (map (fun d => (_id d, d)) stored);
     clock := now; accesses := [] |}.

Definition object (a t d i c : string) : json :=
  JObject [("author", JString a); ("title", JString t);
           ("description", JString d); ("imageUrl", JString i);
           ("createdAt", JString c)].

Definition sending (v : json) : NextRequest := {| parsedBody := Some v |}.

Definition hello : Document :=
  {| _id := 7%N; doc_author := "Ada"; doc_title := "Hello";
     doc_description := "First post"; doc_imageUrl := "https://example.com/a.png";
     doc_createdAt := 1000%Z; doc_updatedAt := 1000%Z |}.

(** One stored post, the clock at 5, the database within reach or not. *)
Definition online : World := at_ 5%Z true [hello].
Definition offline : World := at_ 5%Z false [hello].

Definition helloId : string := "000000000000000000000007".
Definition otherId : string := "507f1f77bcf86cd799439011".

End Sample.

(** ** What a caller can observe *)

(** The statuses each operation lists in its swagger block. *)
Definition documented (r : Request) : list Z :=
  match r with
  | ListPosts => [200; 500]
  | CreatePost _ => [201; 400; 500]
  | FetchPost _ | UpdatePost _ _ | DeletePost _ => [200; 400; 404; 500]
  end%Z.

(** A response that reports success. *)
Definition succeeded (resp : Response) : bool :=
  (status resp =? 200)%Z || (status resp =? 201)%Z.

(** The accesses that operate on documents: all but [Connect]. *)
Definition isDocumentOperation (a : Access) : bool :=
  match a with Connect => false | _ => true end.

(** The accesses a request may add to the log: none, the connection
    alone, or the connection followed by one document operation. *)
Definition oneOperationAtMost (new : list Access) : Prop :=
  new = [] \/ new = [Connect] \/
  exists op, isDocumentOperation op = true /\ new = [Connect; op].

(** The body has no property [name]: an object without it, or a value
    that is no object and so has no property of its own at all. *)
Definition lacks (name : string) (payload : json) : Prop :=
  match payload with
  | JObject props => getProp name props = None
  | _ => True
  end.

(** The response holds an error list with an entry whose field is
    [name]. *)
Definition namesField (name : string) (resp : Response) : Prop :=
  exists errors e,
    body resp = Errors errors /\ e ∈ errors /\ field e = Some name.

(** The document [d] with [updatedAt] stamped anew. *)
Definition restamped (now : Date) (d : Document) : Document :=
  {| _id := _id d;
     doc_author := doc_author d;
     doc_title := doc_title d;
     doc_description := doc_description d;
     doc_imageUrl := doc_imageUrl d;
     doc_createdAt := doc_createdAt d;
     doc_updatedAt := now |}.

(** Two bodies with the same values under the properties of the schema. *)
Definition sameFields (p q : list (string * json)) : Prop :=
  forall name, name ∈ requiredFields -> getProp name p = getProp name q.

(** * Properties *)

(** Unfolds the monad and the model's operations, and nothing else. *)
Ltac run :=
  cbv beta iota zeta delta
    [tryCatch bind ret throw log req_json negb
     mongoose.requireConnection Post.required Post.new Post.save Post.find
     Post.findById Post.findByIdAndUpdate Post.findByIdAndDelete].

(** ** The connection *)

Lemma connectToDB_available (w : World) :
  available w = true ->
  connectToDB w = (inr tt, withConnection (logged Connect w)).
Proof.
  unfold available, connectToDB. run.
  destruct w as [r c p t a]; simpl.
  destruct c; simpl; [reflexivity |].
  intros ->. reflexivity.
Qed.

Lemma connectToDB_unavailable (w : World) :
  available w = false ->
  connectToDB w = (inl (MongooseError "connection failed"), logged Connect w).
Proof.
  unfold available, connectToDB. run.
  destruct w as [r c p t a]; simpl.
  destruct c; simpl; [discriminate |].
  intros ->. reflexivity.
Qed.

(** ** The validator *)

Section Validator.
Context `{Platform}.

Lemma zString_inr (checks : list StringCheck) (key : string)
      (props : list (string * json)) (s : string) :
  zString checks key props = inr s ->
  getProp key props = Some (JString s) /\
  Forall (fun c => runCheck [key] s c = []) checks.
Proof.
  unfold zString. destruct (getProp key props) as [[]|]; try discriminate.
  destruct (List.concat _) eqn:E; [|discriminate].
  intros [= ->]. split; [reflexivity|].
  induction checks as [|c cs IH]; [constructor|].
  simpl in E. apply app_eq_nil in E as [E1 E2]. constructor; auto.
Qed.

Lemma zString_string (checks : list StringCheck) (key : string)
      (props : list (string * json)) (s : string) :
  getProp key props = Some (JString s) ->
  Forall (fun c => runCheck [key] s c = []) checks ->
  zString checks key props = inr s.
Proof.
  intros G F. unfold zString. rewrite G.
  replace (List.concat (map (runCheck [key] s) checks)) with (@nil ZodIssue);
    [reflexivity|].
  induction F as [|c cs Hc _ IH]; simpl; [reflexivity|].
  rewrite Hc. exact IH.
Qed.

Lemma min1_passes (p : list string) (s : string) :
  runCheck p s (min 1) = [] <-> s <> "".
Proof.
  simpl. destruct s; simpl; split; intros; congruence.
Qed.

Lemma url_passes (p : list string) (s : string) :
  runCheck p s url = [] <-> isUrl s = true.
Proof.
  simpl. destruct (isUrl s); split; intros; congruence.
Qed.

(** What a payload that passes the validator looks like. *)
Lemma safeParse_Success (body : json) (data : PostInput) :
  safeParse body = Success data <->
  exists props,
    body = JObject props /\
    getProp "author" props = Some (JString (author data)) /\
    author data <> "" /\
    getProp "title" props = Some (JString (title data)) /\
    title data <> "" /\
    getProp "description" props = Some (JString (description data)) /\
    description data <> "" /\
    getProp "imageUrl" props = Some (JString (imageUrl data)) /\
    isUrl (imageUrl data) = true /\
    getProp "createdAt" props = Some (JString (createdAt data)).
Proof.
  split.
  - destruct body; try discriminate. unfold safeParse.
    destruct (zString [min 1] "author" props) eqn:Ea; [destruct (zString [min 1] "title" props), (zString [min 1] "description" props), (zString [url] "imageUrl" props), (zString [] "createdAt" props); discriminate|].
    destruct (zString [min 1] "title" props) eqn:Et; [destruct (zString [min 1] "description" props), (zString [url] "imageUrl" props), (zString [] "createdAt" props); discriminate|].
    destruct (zString [min 1] "description" props) eqn:Ed; [destruct (zString [url] "imageUrl" props), (zString [] "createdAt" props); discriminate|].
    destruct (zString [url] "imageUrl" props) eqn:Ei; [destruct (zString [] "createdAt" props); discriminate|].
    destruct (zString [] "createdAt" props) eqn:Ec; [discriminate|].
    intros [= <-]. simpl.
    apply zString_inr in Ea as [Ga Fa], Et as [Gt Ft], Ed as [Gd Fd],
          Ei as [Gi Fi], Ec as [Gc _].
    inversion_clear Fa as [|? ? Ha _]. inversion_clear Ft as [|? ? Ht _].
    inversion_clear Fd as [|? ? Hd _]. inversion_clear Fi as [|? ? Hi _].
    apply min1_passes in Ha, Ht, Hd. apply url_passes in Hi.
    exists props. repeat split; assumption.
  - intros (props & -> & Ga & Na & Gt & Nt & Gd & Nd & Gi & Ui & Gc).
    unfold safeParse.
    rewrite (zString_string [min 1] _ _ _ Ga), (zString_string [min 1] _ _ _ Gt),
      (zString_string [min 1] _ _ _ Gd), (zString_string [url] _ _ _ Gi),
      (zString_string [] _ _ _ Gc);
      repeat (constructor; try (apply min1_passes; assumption);
              try (apply url_passes; assumption)).
    destruct data; reflexivity.
Qed.

End Validator.

(** ** The handlers, branch by branch *)

Section Branches.
Context `{Platform}.

Lemma isValid_false (id : string) :
  mongoose.isValid id = false <-> objectIdOf id = None.
Proof. unfold mongoose.isValid. destruct (objectIdOf id); split; congruence. Qed.

Lemma isValid_true (id : string) :
  mongoose.isValid id = true <-> is_Some (objectIdOf id).
Proof.
  unfold mongoose.isValid. destruct (objectIdOf id); split;
    try congruence; eauto. intros [? [=]].
Qed.

Lemma GET_unavailable (w : World) (id : string) :
  available w = false ->
  PostById.GET id w =
    (inr (NextResponse.json (Error "Failed to fetch post") 500), logged Connect w).
Proof.
  intros A. unfold PostById.GET. run.
  rewrite connectToDB_unavailable by done. reflexivity.
Qed.

Lemma GET_malformed (w : World) (id : string) :
  available w = true ->
  mongoose.isValid id = false ->
  PostById.GET id w =
    (inr (NextResponse.json (Error "Invalid ID format") 400),
     withConnection (logged Connect w)).
Proof.
  intros A E. unfold PostById.GET. run.
  rewrite connectToDB_available by done. rewrite E. reflexivity.
Qed.

Lemma GET_wellformed (w : World) (id : string) (oid : ObjectId) :
  available w = true ->
  objectIdOf id = Some oid ->
  PostById.GET id w =
    (inr match posts w !! oid with
         | None => NextResponse.json (Text "Post not found") 404
         | Some p => NextResponse.json (OnePost p) 200
         end,
     logged (FindById id) (withConnection (logged Connect w))).
Proof.
  intros A E. unfold PostById.GET. run.
  rewrite connectToDB_available by done.
  unfold mongoose.isValid. rewrite E. simpl.
  destruct (posts w !! oid); reflexivity.
Qed.

Lemma DELETE_empty (w : World) :
  PostById.DELETE "" w = (inr (NextResponse.json (Error "ID is required") 400), w).
Proof. reflexivity. Qed.

Lemma DELETE_unavailable (w : World) (id : string) :
  id <> "" ->
  available w = false ->
  PostById.DELETE id w =
    (inr (NextResponse.json (Error "Internal server error") 500), logged Connect w).
Proof.
  intros N A. unfold PostById.DELETE. destruct (decide (id = "")); [done|].
  run.
  rewrite connectToDB_unavailable by done. reflexivity.
Qed.

Lemma DELETE_malformed (w : World) (id : string) :
  id <> "" ->
  available w = true ->
  mongoose.isValid id = false ->
  PostById.DELETE id w =
    (inr (NextResponse.json (Error "Invalid ID format") 400),
     withConnection (logged Connect w)).
Proof.
  intros N A E. unfold PostById.DELETE. destruct (decide (id = "")); [done|].
  run.
  rewrite connectToDB_available by done. rewrite E. reflexivity.
Qed.

Lemma wellformed_nonempty (id : string) (oid : ObjectId) :
  objectIdOf id = Some oid -> id <> "".
Proof. intros E ->. rewrite objectIdOf_empty in E. discriminate. Qed.

Lemma DELETE_wellformed (w : World) (id : string) (oid : ObjectId) :
  available w = true ->
  objectIdOf id = Some oid ->
  PostById.DELETE id w =
    (inr match posts w !! oid with
         | None => NextResponse.json (Error "Post not found") 404
         | Some p => NextResponse.json (Deleted "Post deleted successfully" p) 200
         end,
     withPosts (delete oid (posts w))
       (logged (FindByIdAndDelete id) (withConnection (logged Connect w)))).
Proof.
  intros A E. unfold PostById.DELETE.
  destruct (decide (id = "")) as [->|_];
    [by apply wellformed_nonempty in E|].
  run.
  rewrite connectToDB_available by done.
  unfold mongoose.isValid. rewrite E. simpl.
  destruct (posts w !! oid); reflexivity.
Qed.

Lemma PUT_malformed (w : World) (req : NextRequest) (id : string) :
  mongoose.isValid id = false ->
  PostById.PUT req id w =
    (inr (NextResponse.json (Error "Invalid ID format") 400), w).
Proof. intros E. unfold PostById.PUT. rewrite E. reflexivity. Qed.

Lemma PUT_not_json (w : World) (req : NextRequest) (id : string) :
  mongoose.isValid id = true ->
  parsedBody req = None ->
  PostById.PUT req id w =
    (inr (NextResponse.json (Error "Internal server error") 500), w).
Proof.
  intros E B. unfold PostById.PUT. rewrite E. run. rewrite B. reflexivity.
Qed.

Lemma PUT_invalid (w : World) (req : NextRequest) (id : string)
      (payload : json) (issues : list ZodIssue) :
  mongoose.isValid id = true ->
  parsedBody req = Some payload ->
  safeParse payload = Failure issues ->
  PostById.PUT req id w = (inr (NextResponse.json (IssueList issues) 400), w).
Proof.
  intros E B V. unfold PostById.PUT. rewrite E. run. rewrite B, V. reflexivity.
Qed.

Lemma PUT_unavailable (w : World) (req : NextRequest) (id : string)
      (payload : json) (data : PostInput) :
  mongoose.isValid id = true ->
  parsedBody req = Some payload ->
  safeParse payload = Success data ->
  available w = false ->
  PostById.PUT req id w =
    (inr (NextResponse.json (Error "Internal server error") 500), logged Connect w).
Proof.
  intros E B V A. unfold PostById.PUT. rewrite E. run. rewrite B, V.
  rewrite connectToDB_unavailable by done. reflexivity.
Qed.

Lemma PUT_cast_fails (w : World) (req : NextRequest) (id : string)
      (payload : json) (data : PostInput) :
  mongoose.isValid id = true ->
  parsedBody req = Some payload ->
  safeParse payload = Success data ->
  available w = true ->
  mongoose.castCreatedAt (createdAt data) = None ->
  PostById.PUT req id w =
    (inr (NextResponse.json (Error "Internal server error") 500),
     logged (FindByIdAndUpdate id data) (withConnection (logged Connect w))).
Proof.
  intros E B V A C. unfold PostById.PUT. rewrite E.
  apply isValid_true in E as [oid E]. run. rewrite B, V.
  rewrite connectToDB_available by done. rewrite E, C. reflexivity.
Qed.

Lemma PUT_accepted (w : World) (req : NextRequest) (id : string) (oid : ObjectId)
      (payload : json) (data : PostInput) (created : option Date) :
  objectIdOf id = Some oid ->
  parsedBody req = Some payload ->
  safeParse payload = Success data ->
  available w = true ->
  mongoose.castCreatedAt (createdAt data) = Some created ->
  PostById.PUT req id w =
    let w1 := logged (FindByIdAndUpdate id data) (withConnection (logged Connect w)) in
    match posts w !! oid with
    | None => (inr (NextResponse.json (Error "Post not found") 404), w1)
    | Some d =>
        let d' := {| _id := _id d;
                     doc_author := author data;
                     doc_title := title data;
                     doc_description := description data;
                     doc_imageUrl := imageUrl data;
                     doc_createdAt := default (doc_createdAt d) created;
                     doc_updatedAt := clock w |} in
        (inr (NextResponse.json (Updated "Post updated successfully" d') 200),
         withPosts (<[oid := d']> (posts w)) w1)
    end.
Proof.
  intros E B V A C. unfold PostById.PUT, mongoose.isValid. rewrite E.
  run. rewrite B, V.
  rewrite connectToDB_available by done. rewrite E, C. simpl.
  destruct (posts w !! oid); reflexivity.
Qed.

End Branches.

Section Creation.
Context `{Platform}.

Lemma POST_not_json (w : World) (req : NextRequest) :
  parsedBody req = None ->
  Posts.POST req w =
    (inr (NextResponse.json (Error "Failed to create Post") 500), w).
Proof. intros B. unfold Posts.POST. run. rewrite B. reflexivity. Qed.

Lemma POST_invalid (w : World) (req : NextRequest) (payload : json)
      (issues : list ZodIssue) :
  parsedBody req = Some payload ->
  safeParse payload = Failure issues ->
  Posts.POST req w =
    (inr (NextResponse.json
            (Errors (map (fun issue => {| field := head (path issue);
                                          fe_message := message issue |})
                         issues))
            400), w).
Proof. intros B V. unfold Posts.POST. run. rewrite B, V. reflexivity. Qed.

Lemma POST_unavailable (w : World) (req : NextRequest) (payload : json)
      (data : PostInput) :
  parsedBody req = Some payload ->
  safeParse payload = Success data ->
  available w = false ->
  Posts.POST req w =
    (inr (NextResponse.json (Error "Failed to create Post") 500),
     logged Connect w).
Proof.
  intros B V A. unfold Posts.POST. run. rewrite B, V.
  rewrite connectToDB_unavailable by done. reflexivity.
Qed.

Lemma created_is_new (data : PostInput) (w : World) :
  posts w !! _id (created data w) = None.
Proof. apply not_elem_of_dom, is_fresh. Qed.

Lemma POST_accepted (w : World) (req : NextRequest) (payload : json)
      (data : PostInput) :
  parsedBody req = Some payload ->
  safeParse payload = Success data ->
  available w = true ->
  Posts.POST req w =
    (inr (NextResponse.json (Text "Post has been created") 201),
     withPosts (<[_id (created data w) := created data w]> (posts w))
       (logged (Save (created data w)) (withConnection (logged Connect w)))).
Proof.
  intros B V A. unfold Posts.POST. run. rewrite B, V.
  rewrite connectToDB_available by done.
  apply safeParse_Success in V
    as (props & _ & _ & Na & _ & Nt & _ & Nd & _ & Ui & _).
  assert (imageUrl data <> "") as Ni.
  { intros E. rewrite E, isUrl_empty in Ui. discriminate. }
  simpl.
  destruct (decide (author data = "")); [done|].
  destruct (decide (title data = "")); [done|].
  destruct (decide (description data = "")); [done|].
  destruct (decide (imageUrl data = "")); [done|].
  pose proof (created_is_new data w) as F. simpl in F.
  unfold logged, withConnection, withPosts. simpl. rewrite F.
  reflexivity.
Qed.

End Creation.

(** ** What serving a request does to the store and to the log *)

Section Effects.
Context `{Platform}.

Lemma list_GET_effect (w : World) :
  posts (snd (Posts.GET w)) = posts w /\
  exists new, accesses (snd (Posts.GET w)) = (accesses w ++ new)%list /\
              Forall (fun a => isWrite a = false) new.
Proof.
  unfold Posts.GET. run. destruct (available w) eqn:A.
  - rewrite connectToDB_available by done. simpl. split; [reflexivity|].
    exists [Connect; Find]. rewrite <- app_assoc. split; [reflexivity|].
    repeat constructor.
  - rewrite connectToDB_unavailable by done. simpl. split; [reflexivity|].
    exists [Connect]. split; [reflexivity|]. repeat constructor.
Qed.

(** Every way a request can end: the store is left as it was, a
    validated payload was written, or a post was deleted. *)
Lemma handler_effect (r : Request) (w : World) :
  exists new,
    accesses (snd (handler r w)) = (accesses w ++ new)%list /\
    ((posts (snd (handler r w)) = posts w /\
      Forall (fun a => isWrite a = false) new)
     \/ (exists payload data,
           payloadOf r = Some payload /\ safeParse payload = Success data /\
           ((new = [Connect; Save (created data w)] /\
             posts (snd (handler r w)) =
               <[_id (created data w) := created data w]> (posts w))
            \/ (exists id, new = [Connect; FindByIdAndUpdate id data] /\
                  (posts (snd (handler r w)) = posts w \/
                   exists oid d, carries data d /\
                     posts (snd (handler r w)) = <[oid := d]> (posts w)))))
     \/ (exists oid, posts (snd (handler r w)) = delete oid (posts w) /\
                     Forall (fun a => isWrite a = false) new)).
Proof.
  destruct r as [|req|id|req id|id]; simpl.
  - destruct (list_GET_effect w) as (P & new & L & F).
    exists new. split; [exact L|]. left. split; assumption.
  - destruct (parsedBody req) as [payload|] eqn:B.
    2:{ rewrite POST_not_json by done. exists []. rewrite app_nil_r.
        split; [reflexivity|]. left. split; [reflexivity|constructor]. }
    destruct (safeParse payload) as [data|issues] eqn:V.
    2:{ rewrite (POST_invalid _ _ _ _ B V). exists []. rewrite app_nil_r.
        split; [reflexivity|]. left. split; [reflexivity|constructor]. }
    destruct (available w) eqn:A.
    + rewrite (POST_accepted _ _ _ _ B V A). simpl.
      exists [Connect; Save (created data w)]. rewrite <- app_assoc.
      split; [reflexivity|]. right; left. exists payload, data.
      repeat split; try assumption. left. split; reflexivity.
    + rewrite (POST_unavailable _ _ _ _ B V A). simpl.
      exists [Connect]. split; [reflexivity|]. left.
      split; [reflexivity|repeat constructor].
  - destruct (available w) eqn:A.
    2:{ rewrite GET_unavailable by done. simpl. exists [Connect].
        split; [reflexivity|]. left. split; [reflexivity|repeat constructor]. }
    destruct (objectIdOf id) as [oid|] eqn:E.
    + rewrite (GET_wellformed _ _ _ A E). simpl.
      exists [Connect; FindById id]. rewrite <- app_assoc.
      split; [reflexivity|]. left. split; [reflexivity|repeat constructor].
    + apply isValid_false in E. rewrite (GET_malformed _ _ A E). simpl.
      exists [Connect]. split; [reflexivity|]. left.
      split; [reflexivity|repeat constructor].
  - destruct (mongoose.isValid id) eqn:E.
    2:{ rewrite PUT_malformed by done. exists []. rewrite app_nil_r.
        split; [reflexivity|]. left. split; [reflexivity|constructor]. }
    destruct (parsedBody req) as [payload|] eqn:B.
    2:{ rewrite PUT_not_json by done. exists []. rewrite app_nil_r.
        split; [reflexivity|]. left. split; [reflexivity|constructor]. }
    destruct (safeParse payload) as [data|issues] eqn:V.
    2:{ rewrite (PUT_invalid _ _ _ _ _ E B V). exists []. rewrite app_nil_r.
        split; [reflexivity|]. left. split; [reflexivity|constructor]. }
    destruct (available w) eqn:A.
    2:{ rewrite (PUT_unavailable _ _ _ _ _ E B V A). simpl. exists [Connect].
        split; [reflexivity|]. left. split; [reflexivity|repeat constructor]. }
    destruct (mongoose.castCreatedAt (createdAt data)) as [c|] eqn:C.
    + pose proof E as E'. apply isValid_true in E' as [oid E'].
      rewrite (PUT_accepted _ _ _ _ _ _ _ E' B V A C).
      exists [Connect; FindByIdAndUpdate id data].
      destruct (posts w !! oid) as [d|] eqn:L; simpl; rewrite <- app_assoc;
        (split; [reflexivity|]); right; left; exists payload, data;
        (repeat split; try assumption); right; exists id;
        (split; [reflexivity|]).
      * right. eexists oid, _. split; [|reflexivity]. repeat split.
      * left. reflexivity.
    + rewrite (PUT_cast_fails _ _ _ _ _ E B V A C). simpl.
      exists [Connect; FindByIdAndUpdate id data]. rewrite <- app_assoc.
      split; [reflexivity|]. right; left. exists payload, data.
      repeat split; try assumption. right. exists id. split; [reflexivity|].
      left. reflexivity.
  - destruct (decide (id = "")) as [->|N].
    { rewrite DELETE_empty. exists []. rewrite app_nil_r.
      split; [reflexivity|]. left. split; [reflexivity|constructor]. }
    destruct (available w) eqn:A.
    2:{ rewrite DELETE_unavailable by done. simpl. exists [Connect].
        split; [reflexivity|]. left. split; [reflexivity|repeat constructor]. }
    destruct (objectIdOf id) as [oid|] eqn:E.
    + rewrite (DELETE_wellformed _ _ _ A E). simpl.
      exists [Connect; FindByIdAndDelete id]. rewrite <- app_assoc.
      split; [reflexivity|]. right; right. exists oid.
      split; [reflexivity|repeat constructor].
    + apply isValid_false in E. rewrite (DELETE_malformed _ _ N A E). simpl.
      exists [Connect]. split; [reflexivity|]. left.
      split; [reflexivity|repeat constructor].
Qed.

End Effects.

(** * The claims *)

(** ** Identifier checks *)

(** C9: an update whose path identifier is not a well-formed ObjectId is
    answered 400 with the invalid-ID-format error whatever the body is,
    parseable or not, valid or not: the body is never looked at and the
    world is left as it was. *)
Theorem update_malformed_id_whatever_body `{Platform}
        (w : World) (req : NextRequest) (id : string) :
  mongoose.isValid id = false ->
  PostById.PUT req id w =
    (inr (NextResponse.json (Error "Invalid ID format") 400), w).
Proof. apply PUT_malformed. Qed.

Lemma update_malformed_id_whatever_body_witness :
  @mongoose.isValid Sample.casting "not-an-id" = false /\
  @PostById.PUT Sample.casting {| parsedBody := None |} "not-an-id"
    Sample.online =
    (inr (NextResponse.json (Error "Invalid ID format") 400),
     Sample.online).
Proof.
  split; [reflexivity|].
  apply (@update_malformed_id_whatever_body Sample.casting). reflexivity.
Defined.

(** C1, on the code: with an identifier that is not a well-formed
    ObjectId, an update answers 400 with the world untouched, and so does
    a delete of the empty identifier; but a fetch and a delete reach for
    the connection before they test the identifier: the log holds a
    [Connect] when they answer 400, and they answer 500 when the
    connection cannot be had. *)
Theorem malformed_id_fetch_delete_connect_first :
  @mongoose.isValid Sample.casting "not-an-id" = false /\
  @PostById.PUT Sample.casting {| parsedBody := None |} "not-an-id"
    Sample.online =
    (inr (NextResponse.json (Error "Invalid ID format") 400), Sample.online) /\
  @PostById.DELETE Sample.casting "" Sample.online =
    (inr (NextResponse.json (Error "ID is required") 400), Sample.online) /\
  @PostById.GET Sample.casting "not-an-id" Sample.online =
    (inr (NextResponse.json (Error "Invalid ID format") 400),
     withConnection (logged Connect Sample.online)) /\
  @PostById.DELETE Sample.casting "not-an-id" Sample.online =
    (inr (NextResponse.json (Error "Invalid ID format") 400),
     withConnection (logged Connect Sample.online)) /\
  @PostById.GET Sample.casting "not-an-id" Sample.offline =
    (inr (NextResponse.json (Error "Failed to fetch post") 500),
     logged Connect Sample.offline) /\
  @PostById.DELETE Sample.casting "not-an-id" Sample.offline =
    (inr (NextResponse.json (Error "Internal server error") 500),
     logged Connect Sample.offline) /\
  ~ answersUntouched 400 (@PostById.GET Sample.casting "not-an-id") Sample.online /\
  ~ answersUntouched 400 (@PostById.DELETE Sample.casting "not-an-id")
      Sample.offline.
Proof.
  split; [reflexivity|].
  do 6 (split; [vm_compute; reflexivity|]). split.
  - intros (resp & w' & E & _ & _ & L). vm_compute in E.
    inversion E; subst. discriminate L.
  - intros (resp & w' & E & S & _). vm_compute in E.
    inversion E; subst. discriminate S.
Qed.

(** C6, as stated: a well-formed identifier that matches no stored post
    is answered 404 by fetch, update and delete alike.  An update whose
    payload fails validation is answered 400 before the store is asked,
    and a fetch that cannot get the connection is answered 500. *)
Lemma unknown_id_not_always_404 :
  @objectIdOf Sample.casting Sample.otherId = Some 24912482966938930280208240657%N /\
  posts Sample.online !! 24912482966938930280208240657%N = None /\
  posts Sample.offline !! 24912482966938930280208240657%N = None /\
  ~ answers 404
      (@PostById.PUT Sample.casting (Sample.sending (JObject [])) Sample.otherId)
      Sample.online /\
  ~ answers 404 (@PostById.GET Sample.casting Sample.otherId) Sample.offline.
Proof.
  repeat (split; [reflexivity|]).
  split; intros (resp & w' & E & S); vm_compute in E; inversion E; subst;
    discriminate S.
Qed.

(** C6, amended: when the database connection is available, a fetch or a
    delete with a well-formed identifier that matches no stored post is
    answered 404, and so is an update whose payload passes validation and
    whose [createdAt] the mapper does not fail to cast; none of them
    changes the store. *)
Theorem unknown_id_not_found `{Platform}
        (w : World) (id : string) (oid : ObjectId) :
  available w = true ->
  objectIdOf id = Some oid ->
  posts w !! oid = None ->
  (exists w', PostById.GET id w =
                (inr (NextResponse.json (Text "Post not found") 404), w') /\
              posts w' = posts w) /\
  (exists w', PostById.DELETE id w =
                (inr (NextResponse.json (Error "Post not found") 404), w') /\
              posts w' = posts w) /\
  (forall req payload data,
      parsedBody req = Some payload ->
      safeParse payload = Success data ->
      mongoose.castCreatedAt (createdAt data) <> None ->
      exists w', PostById.PUT req id w =
                   (inr (NextResponse.json (Error "Post not found") 404), w') /\
                 posts w' = posts w).
Proof.
  intros A E L. split; [|split].
  - rewrite (GET_wellformed _ _ _ A E), L. eexists. split; reflexivity.
  - rewrite (DELETE_wellformed _ _ _ A E), L. eexists. split; [reflexivity|].
    simpl. apply delete_id. exact L.
  - intros req payload data B V C.
    destruct (mongoose.castCreatedAt (createdAt data)) as [c|] eqn:C'; [|done].
    rewrite (PUT_accepted _ _ _ _ _ _ _ E B V A C'), L.
    eexists. split; reflexivity.
Qed.

Lemma unknown_id_not_found_witness :
  available Sample.online = true /\
  @objectIdOf Sample.casting Sample.otherId = Some 24912482966938930280208240657%N /\
  posts Sample.online !! 24912482966938930280208240657%N = None /\
  exists w', @PostById.GET Sample.casting Sample.otherId Sample.online =
               (inr (NextResponse.json (Text "Post not found") 404), w') /\
             posts w' = posts Sample.online.
Proof.
  repeat (split; [reflexivity|]).
  apply (@unknown_id_not_found Sample.casting Sample.online Sample.otherId
           24912482966938930280208240657%N eq_refl eq_refl eq_refl).
Defined.

(** ** Updates *)

(** C3: an update whose payload fails validation is answered 400, and
    neither the stored posts nor the log of database accesses change: no
    document operation is performed on the post the path names. *)
Theorem update_invalid_payload_untouched `{Platform}
        (w : World) (req : NextRequest) (id : string)
        (payload : json) (issues : list ZodIssue) :
  parsedBody req = Some payload ->
  safeParse payload = Failure issues ->
  answersUntouched 400 (PostById.PUT req id) w.
Proof.
  intros B V. unfold answersUntouched. destruct (mongoose.isValid id) eqn:E.
  - rewrite (PUT_invalid _ _ _ _ _ E B V). eexists _, w. repeat split.
  - rewrite PUT_malformed by done. eexists _, w. repeat split.
Qed.

Lemma update_invalid_payload_untouched_witness :
  answersUntouched 400
    (@PostById.PUT Sample.casting
       (Sample.sending (Sample.object "" "T" "D" "nowhere" "now")) Sample.helloId)
    Sample.online.
Proof.
  eapply (@update_invalid_payload_untouched Sample.casting);
    [reflexivity | vm_compute; reflexivity].
Defined.

(** C7, as stated: an update of an existing post with a validated
    payload is answered 200 and leaves the post with all five validated
    fields taken from the payload.  It is answered 500 when the
    connection cannot be had; and a [createdAt] that is a string but no
    date cannot become the stored creation date, whether the mapper casts
    it or keeps [createdAt] to itself. *)
Lemma update_not_always_replacing :
  let payload := Sample.object "Bob" "T" "D" "https://x.org/i" "yesterday" in
  let data := {| author := "Bob"; title := "T"; description := "D";
                 imageUrl := "https://x.org/i"; createdAt := "yesterday" |} in
  let dated := Sample.object "Bob" "T" "D" "https://x.org/i"
                 "2023-01-01T00:00:00.000Z" in
  @objectIdOf Sample.casting Sample.helloId = Some 7%N /\
  posts Sample.online !! 7%N = Some Sample.hello /\
  posts Sample.offline !! 7%N = Some Sample.hello /\
  @safeParse Sample.casting payload = Success data /\
  ~ @replacesAllFields Sample.casting (Sample.sending payload) Sample.helloId 7%N
      data Sample.online /\
  ~ @replacesAllFields Sample.owning (Sample.sending payload) Sample.helloId 7%N
      data Sample.online /\
  ~ answers 200 (@PostById.PUT Sample.casting (Sample.sending dated) Sample.helloId)
      Sample.offline.
Proof.
  repeat (split; [reflexivity|]). split; [|split].
  - intros (w' & d & E & _). vm_compute in E. discriminate E.
  - intros (w' & d & _ & _ & _ & C). vm_compute in C. discriminate C.
  - intros (resp & w' & E & S). vm_compute in E. inversion E; subst.
    discriminate S.
Qed.

(** C7, amended: when the database connection is available, an update
    with a well-formed identifier of an existing post and a payload that
    passes validation, whose [createdAt] the mapper does not fail to
    cast, is answered 200 with the updated post; that post is stored
    under the same identifier in place of the old one, with author,
    title, description and imageUrl taken from the payload. *)
Theorem update_replaces_text_fields `{Platform}
        (w : World) (req : NextRequest) (id : string) (oid : ObjectId)
        (old : Document) (payload : json) (data : PostInput) :
  available w = true ->
  objectIdOf id = Some oid ->
  posts w !! oid = Some old ->
  parsedBody req = Some payload ->
  safeParse payload = Success data ->
  mongoose.castCreatedAt (createdAt data) <> None ->
  exists w' d,
    PostById.PUT req id w =
      (inr (NextResponse.json (Updated "Post updated successfully" d) 200), w') /\
    posts w' = <[oid := d]> (posts w) /\
    carries data d /\ _id d = _id old.
Proof.
  intros A E L B V C.
  destruct (mongoose.castCreatedAt (createdAt data)) as [c|] eqn:C'; [|done].
  rewrite (PUT_accepted _ _ _ _ _ _ _ E B V A C'), L.
  eexists _, _. split; [reflexivity|]. repeat split.
Qed.

Lemma update_replaces_text_fields_witness :
  let payload := Sample.object "Bob" "T" "D" "https://x.org/i" "yesterday" in
  let data := {| author := "Bob"; title := "T"; description := "D";
                 imageUrl := "https://x.org/i"; createdAt := "yesterday" |} in
  available Sample.online = true /\
  @objectIdOf Sample.owning Sample.helloId = Some 7%N /\
  posts Sample.online !! 7%N = Some Sample.hello /\
  @safeParse Sample.owning payload = Success data /\
  @mongoose.castCreatedAt Sample.owning "yesterday" <> None /\
  exists w' d,
    @PostById.PUT Sample.owning (Sample.sending payload) Sample.helloId
      Sample.online =
      (inr (NextResponse.json (Updated "Post updated successfully" d) 200), w') /\
    posts w' = <[7%N := d]> (posts Sample.online) /\
    carries data d /\ _id d = _id Sample.hello.
Proof.
  repeat (split; [reflexivity|]). split; [discriminate|].
  apply (@update_replaces_text_fields Sample.owning Sample.online
           (Sample.sending (Sample.object "Bob" "T" "D" "https://x.org/i" "yesterday"))
           Sample.helloId 7%N Sample.hello
           (Sample.object "Bob" "T" "D" "https://x.org/i" "yesterday")
           {| author := "Bob"; title := "T"; description := "D";
              imageUrl := "https://x.org/i"; createdAt := "yesterday" |});
    solve [reflexivity | discriminate].
Defined.

(** ** Creation *)

(** C10: a creation request whose body is not JSON is answered 500 with
    the generic creation-failure message, not 400, and the world is left
    as it was: nothing is persisted and the database is not reached for. *)
Theorem create_unparseable_body `{Platform} (w : World) (req : NextRequest) :
  parsedBody req = None ->
  Posts.POST req w =
    (inr (NextResponse.json (Error "Failed to create Post") 500), w).
Proof. apply POST_not_json. Qed.

Lemma create_unparseable_body_witness :
  @Posts.POST Sample.casting {| parsedBody := None |} Sample.online =
    (inr (NextResponse.json (Error "Failed to create Post") 500), Sample.online).
Proof.
  apply (@create_unparseable_body Sample.casting Sample.online
           {| parsedBody := None |} eq_refl).
Defined.

Section FieldErrors.
Context `{Platform}.

Lemma zString_missing (checks : list StringCheck) (key : string)
      (props : list (string * json)) :
  getProp key props = None ->
  zString checks key props = inl [invalidType "string" [key] None].
Proof. intros G. unfold zString. rewrite G. reflexivity. Qed.

Lemma zString_not_url (props : list (string * json)) :
  (forall s, getProp "imageUrl" props = Some (JString s) -> isUrl s = false) ->
  exists issue, zString [url] "imageUrl" props = inl [issue] /\
                path issue = ["imageUrl"].
Proof.
  intros N. unfold zString.
  destruct (getProp "imageUrl" props) as [[| | |s| |]|];
    try (eexists; split; reflexivity).
  simpl. rewrite (N s eq_refl). eexists; split; reflexivity.
Qed.

(** An issue raised on one property is among those [safeParse]
    reports. *)
Lemma safeParse_reports (props : list (string * json)) (key : string)
      (checks : list StringCheck) (issues : list ZodIssue) :
  (key, checks) ∈ shape ->
  zString checks key props = inl issues ->
  exists reported, safeParse (JObject props) = Failure reported /\
                   issues ⊆ reported.
Proof.
  intros M Z. unfold safeParse. unfold shape in M.
  rewrite !elem_of_cons, elem_of_nil in M.
  destruct M as [M|[M|[M|[M|[M|[]]]]]]; injection M as -> ->;
    rewrite Z;
    destruct (zString [min 1] "author" props),
             (zString [min 1] "title" props),
             (zString [min 1] "description" props),
             (zString [url] "imageUrl" props),
             (zString [] "createdAt" props);
    try discriminate; injection Z as <-;
    (eexists; split; [reflexivity|]); simpl; set_solver.
Qed.

End FieldErrors.

(** C5, as stated: a creation request whose body is missing a required
    field is answered 400 with an error entry whose field names it.  A
    body that is JSON but no object (an array, null, a number) has none
    of the required fields, and is answered 400 with a single error whose
    field is undefined: no entry names any field. *)
Lemma create_non_object_names_no_field :
  lacks "author" (JArray []) /\
  lacks "author" JNull /\
  @Posts.POST Sample.casting (Sample.sending (JArray [])) Sample.online =
    (inr (NextResponse.json
            (Errors [ {| field := None;
                         fe_message := "Expected object, received array" |} ])
            400), Sample.online) /\
  (forall resp w',
      @Posts.POST Sample.casting (Sample.sending (JArray [])) Sample.online =
        (inr resp, w') -> ~ namesField "author" resp) /\
  (forall resp w',
      @Posts.POST Sample.casting (Sample.sending JNull) Sample.online =
        (inr resp, w') -> ~ namesField "author" resp).
Proof.
  split; [exact I|]. split; [exact I|]. split; [vm_compute; reflexivity|].
  split; intros resp w' E (errors & e & B & M & F); vm_compute in E;
    inversion E; subst; simpl in B; injection B as <-;
    apply list_elem_of_singleton in M; subst e; discriminate F.
Qed.

(** C5, amended: a creation request whose body is a JSON object that
    lacks one of the required properties (author, title, description,
    imageUrl, createdAt), or whose imageUrl is not a string that is a
    valid URL, is answered 400 with an error list holding an entry whose
    field is the name of that property; the world is left as it was. *)
Theorem create_names_offending_field `{Platform}
        (w : World) (req : NextRequest) (props : list (string * json))
        (name : string) :
  parsedBody req = Some (JObject props) ->
  (name ∈ requiredFields /\ getProp name props = None) \/
  (name = "imageUrl" /\
   forall s, getProp "imageUrl" props = Some (JString s) -> isUrl s = false) ->
  exists errors,
    Posts.POST req w = (inr (NextResponse.json (Errors errors) 400), w) /\
    exists e, e ∈ errors /\ field e = Some name.
Proof.
  intros B O.
  assert (exists checks issue,
             (name, checks) ∈ shape /\
             zString checks name props = inl [issue] /\ path issue = [name])
    as (checks & issue & M & Z & P).
  { destruct O as [[M G] | [-> N]].
    - unfold requiredFields in M.
      assert (exists checks,
                 (name, checks) ∈ shape) as [checks M'].
      { rewrite !elem_of_cons, elem_of_nil in M.
        destruct M as [->|[->|[->|[->|[->|[]]]]]];
          [exists [min 1] | exists [min 1] | exists [min 1] | exists [url]
          | exists []]; unfold shape; set_solver. }
      exists checks, (invalidType "string" [name] None).
      split; [exact M'|]. split; [|reflexivity].
      apply zString_missing, G.
    - destruct (zString_not_url props N) as (issue & Z & P).
      exists [url], issue. split; [unfold shape; set_solver|]. split; assumption. }
  destruct (safeParse_reports props name checks [issue] M Z) as (reported & V & S).
  rewrite (POST_invalid _ _ _ _ B V). eexists. split; [reflexivity|].
  exists {| field := head (path issue); fe_message := message issue |}.
  split; [|rewrite P; reflexivity].
  apply list_elem_of_fmap. exists issue. split; [reflexivity|].
  apply S. constructor.
Qed.

Lemma create_names_offending_field_witness :
  let props := [("author", JString "Bob"); ("imageUrl", JString "nowhere")] in
  ("title" ∈ requiredFields /\ getProp "title" props = None) /\
  exists errors,
    @Posts.POST Sample.casting (Sample.sending (JObject props)) Sample.online =
      (inr (NextResponse.json (Errors errors) 400), Sample.online) /\
    exists e, e ∈ errors /\ field e = Some "title".
Proof.
  intros props.
  assert ("title" ∈ requiredFields /\ getProp "title" props = None) as O.
  { split; [unfold requiredFields; set_solver | reflexivity]. }
  split; [exact O|].
  apply (@create_names_offending_field Sample.casting Sample.online
           (Sample.sending (JObject props)) props "title" eq_refl (or_introl O)).
Defined.

(** C8, as stated: a creation request that contains all required fields
    and a valid image URL is answered 201.  A field that is there but
    empty is refused by the validator with 400, and a creation that
    cannot get the connection is answered 500. *)
Lemma create_not_always_201 :
  let props := [("author", JString ""); ("title", JString "T");
                ("description", JString "D");
                ("imageUrl", JString "https://x.org/i");
                ("createdAt", JString "2023-01-01T00:00:00.000Z")] in
  let filled := Sample.object "Bob" "T" "D" "https://x.org/i"
                  "2023-01-01T00:00:00.000Z" in
  (forall name, name ∈ requiredFields -> is_Some (getProp name props)) /\
  (exists u, getProp "imageUrl" props = Some (JString u) /\
             @isUrl Sample.casting u = true) /\
  ~ answers 201 (@Posts.POST Sample.casting (Sample.sending (JObject props)))
      Sample.online /\
  ~ answers 201 (@Posts.POST Sample.casting (Sample.sending filled))
      Sample.offline.
Proof.
  intros props filled. split; [|split].
  - intros name M. unfold requiredFields in M.
    rewrite !elem_of_cons, elem_of_nil in M.
    destruct M as [->|[->|[->|[->|[->|[]]]]]]; eexists; reflexivity.
  - eexists. split; reflexivity.
  - split; intros (resp & w' & E & S); vm_compute in E; inversion E; subst;
      discriminate S.
Qed.

(** C8, amended: when the database connection is available, a creation
    request whose body passes the validator (all five required fields are
    strings, author, title and description are not empty, imageUrl is a
    valid URL) is answered 201; the new post is stored under an
    identifier no post had, carries the payload's author, title,
    description and imageUrl, and a subsequent fetch by an identifier
    string that denotes the assigned identifier is answered 200 with
    that post. *)
Theorem create_then_fetch `{Platform}
        (w : World) (req : NextRequest) (payload : json) (data : PostInput) :
  available w = true ->
  parsedBody req = Some payload ->
  safeParse payload = Success data ->
  exists w',
    Posts.POST req w =
      (inr (NextResponse.json (Text "Post has been created") 201), w') /\
    posts w !! _id (created data w) = None /\
    posts w' = <[_id (created data w) := created data w]> (posts w) /\
    carries data (created data w) /\
    forall id, objectIdOf id = Some (_id (created data w)) ->
      exists w'',
        PostById.GET id w' =
          (inr (NextResponse.json (OnePost (created data w)) 200), w'').
Proof.
  intros A B V. rewrite (POST_accepted _ _ _ _ B V A).
  eexists. split; [reflexivity|]. split; [apply created_is_new|].
  split; [reflexivity|]. split; [repeat split|].
  intros id E. erewrite GET_wellformed; [|reflexivity|exact E].
  simpl. rewrite lookup_insert_eq. eexists. reflexivity.
Qed.

Lemma create_then_fetch_witness :
  let payload := Sample.object "Bob" "T" "D" "https://x.org/i"
                   "2023-01-01T00:00:00.000Z" in
  let data := {| author := "Bob"; title := "T"; description := "D";
                 imageUrl := "https://x.org/i";
                 createdAt := "2023-01-01T00:00:00.000Z" |} in
  available Sample.online = true /\
  @safeParse Sample.casting payload = Success data /\
  exists w',
    @Posts.POST Sample.casting (Sample.sending payload) Sample.online =
      (inr (NextResponse.json (Text "Post has been created") 201), w') /\
    posts Sample.online !! _id (created data Sample.online) = None /\
    posts w' = <[_id (created data Sample.online) := created data Sample.online]>
                 (posts Sample.online) /\
    carries data (created data Sample.online) /\
    forall id, @objectIdOf Sample.casting id =
                 Some (_id (created data Sample.online)) ->
      exists w'',
        @PostById.GET Sample.casting id w' =
          (inr (NextResponse.json (OnePost (created data Sample.online)) 200), w'').
Proof.
  intros payload data. split; [reflexivity|]. split; [reflexivity|].
  apply (@create_then_fetch Sample.casting Sample.online
           (Sample.sending payload) payload data eq_refl eq_refl eq_refl).
Defined.

(** C2, on the code: the creation date of a created post is the store's
    clock, with a client-supplied [createdAt] that denotes another
    instant validated and then left out of the document. *)
Theorem create_leaves_out_client_createdAt :
  let payload := Sample.object "Bob" "T" "D" "https://x.org/i"
                   "2023-01-01T00:00:00.000Z" in
  let w := Sample.at_ 5%Z true [] in
  @castDate Sample.casting "2023-01-01T00:00:00.000Z" = Some 1672531200000%Z /\
  exists w',
    @Posts.POST Sample.casting (Sample.sending payload) w =
      (inr (NextResponse.json (Text "Post has been created") 201), w') /\
    map_to_list (posts w') =
      [(0%N, {| _id := 0%N; doc_author := "Bob"; doc_title := "T";
                doc_description := "D"; doc_imageUrl := "https://x.org/i";
                doc_createdAt := 5%Z; doc_updatedAt := 5%Z |})].
Proof.
  split; [reflexivity|].
  eexists. split; vm_compute; reflexivity.
Qed.

(** ** The store over time *)

Section Invariant.
Context `{Platform}.

Lemma validated_meets (payload : json) (data : PostInput) (d : Document) :
  safeParse payload = Success data -> carries data d -> meetsConstraints d.
Proof.
  intros V (Ca & Ct & Cd & Ci).
  apply safeParse_Success in V
    as (props & _ & _ & Na & _ & Nt & _ & Nd & _ & Ui & _).
  unfold meetsConstraints. rewrite Ca, Ct, Cd, Ci. repeat split; assumption.
Qed.

Lemma storeValid_step (w : World) (e : Event) :
  storeValid w -> storeValid (step w e).
Proof.
  intros I. destruct e as [r| | |]; try exact I.
  unfold storeValid, step.
  destruct (handler_effect r w)
    as (new & _ & [[-> _] | [(payload & data & _ & V & W) | (oid & -> & _)]]).
  - exact I.
  - destruct W as [[_ ->] | (id & _ & [-> | (oid & d & C & ->)])].
    + apply map_Forall_insert_2; [|exact I].
      apply (validated_meets payload data); [exact V | repeat split].
    + exact I.
    + apply map_Forall_insert_2; [|exact I].
      apply (validated_meets payload data); assumption.
  - apply map_Forall_delete. exact I.
Qed.

Lemma storeValid_run (events : list Event) (w : World) :
  storeValid w -> storeValid (run events w).
Proof.
  revert w. induction events as [|e events IH]; intros w I; [exact I|].
  apply IH, storeValid_step, I.
Qed.

Lemma validatedFirst_always (r : Request) (w : World) : validatedFirst r w.
Proof.
  intros a M W.
  destruct (handler_effect r w) as (new & L & E). rewrite L in M.
  apply elem_of_app in M as [M | M]; [left; exact M | right].
  destruct E as [[_ F] | [(payload & data & P & V & E) | (oid & _ & F)]].
  - rewrite Forall_forall in F. rewrite (F a M) in W. discriminate.
  - exists payload, data. split; [exact P|]. split; [exact V|].
    destruct E as [[-> _] | (id & -> & _)];
      rewrite !elem_of_cons, elem_of_nil in M;
      destruct M as [-> | [-> | []]]; try discriminate W.
    + repeat split.
    + reflexivity.
  - rewrite Forall_forall in F. rewrite (F a M) in W. discriminate.
Qed.

End Invariant.

(** C4: whatever requests are served, and however the clock and the
    connection change in between, a store whose posts met the validator's
    constraints (author, title and description not empty, imageUrl a
    valid URL) still holds only such posts; and in every world so reached
    a request writes a post only out of a payload that passed the
    validator as a whole: a create saves a document carrying that
    payload's fields, an update sends exactly the validated payload. *)
Theorem stored_posts_validated `{Platform} (events : list Event) (w : World) :
  storeValid w ->
  storeValid (run events w) /\
  forall r, validatedFirst r (run events w).
Proof.
  intros I. split; [apply storeValid_run, I | intros r; apply validatedFirst_always].
Qed.

Lemma stored_posts_validated_witness :
  let payload := Sample.object "Bob" "T" "D" "https://x.org/i" "yesterday" in
  let events := [Serve (CreatePost (Sample.sending payload));
                 Tick 9;
                 Serve (UpdatePost (Sample.sending payload) Sample.helloId);
                 Disconnect; Network false;
                 Serve (DeletePost Sample.helloId)] in
  @storeValid Sample.owning Sample.online /\
  @storeValid Sample.owning (@run Sample.owning events Sample.online) /\
  forall r, @validatedFirst Sample.owning r (@run Sample.owning events Sample.online).
Proof.
  intros payload events.
  assert (@storeValid Sample.owning Sample.online) as I.
  { unfold storeValid, Sample.online, Sample.at_. simpl.
    apply map_Forall_insert_2; [|apply map_Forall_empty].
    repeat split; discriminate. }
  split; [exact I|].
  apply (@stored_posts_validated Sample.owning events Sample.online I).
Defined.

(** * Further properties of the handlers *)

Section MoreBranches.
Context `{Platform}.

Lemma list_GET_available (w : World) :
  available w = true ->
  Posts.GET w =
    (inr (NextResponse.json (AllPosts (map snd (map_to_list (posts w)))) 200),
     logged Find (withConnection (logged Connect w))).
Proof.
  intros A. unfold Posts.GET. run. rewrite connectToDB_available by done.
  reflexivity.
Qed.

Lemma list_GET_unavailable (w : World) :
  available w = false ->
  Posts.GET w =
    (inr (NextResponse.json
            (ErrorDetails "Failed to retrieve posts"
                          (MongooseError "connection failed")) 500),
     logged Connect w).
Proof.
  intros A. unfold Posts.GET. run. rewrite connectToDB_unavailable by done.
  reflexivity.
Qed.

End MoreBranches.

(** Splits the run of a handler into the branches of its source and
    rewrites it into the response and the world of each. *)
Ltac branches :=
  lazymatch goal with
  | |- context [Posts.GET ?w] =>
      let A := fresh "A" in
      destruct (available w) eqn:A;
      [rewrite (list_GET_available w A) | rewrite (list_GET_unavailable w A)]
  | |- context [Posts.POST ?req ?w] =>
      let B := fresh "B" in let V := fresh "V" in let A := fresh "A" in
      let payload := fresh "payload" in let data := fresh "data" in
      let issues := fresh "issues" in
      destruct (parsedBody req) as [payload|] eqn:B;
      [destruct (safeParse payload) as [data|issues] eqn:V;
       [destruct (available w) eqn:A;
        [rewrite (POST_accepted w req payload data B V A)
        |rewrite (POST_unavailable w req payload data B V A)]
       |rewrite (POST_invalid w req payload issues B V)]
      |rewrite (POST_not_json w req B)]
  | |- context [PostById.GET ?id ?w] =>
      let A := fresh "A" in let E := fresh "E" in let oid := fresh "oid" in
      let L := fresh "L" in let d := fresh "d" in
      destruct (available w) eqn:A;
      [destruct (objectIdOf id) as [oid|] eqn:E;
       [rewrite (GET_wellformed w id oid A E);
        destruct (posts w !! oid) as [d|] eqn:L
       |rewrite (GET_malformed w id A (proj2 (isValid_false id) E))]
      |rewrite (GET_unavailable w id A)]
  | |- context [PostById.DELETE ?id ?w] =>
      let A := fresh "A" in let E := fresh "E" in let oid := fresh "oid" in
      let L := fresh "L" in let d := fresh "d" in let N := fresh "N" in
      destruct (decide (id = "")) as [->|N];
      [rewrite DELETE_empty
      |destruct (available w) eqn:A;
       [destruct (objectIdOf id) as [oid|] eqn:E;
        [rewrite (DELETE_wellformed w id oid A E);
         destruct (posts w !! oid) as [d|] eqn:L
        |rewrite (DELETE_malformed w id N A (proj2 (isValid_false id) E))]
       |rewrite (DELETE_unavailable w id N A)]]
  | |- context [PostById.PUT ?req ?id ?w] =>
      let A := fresh "A" in let E := fresh "E" in let oid := fresh "oid" in
      let L := fresh "L" in let d := fresh "d" in
      let B := fresh "B" in let V := fresh "V" in let C := fresh "C" in
      let payload := fresh "payload" in let data := fresh "data" in
      let issues := fresh "issues" in let c := fresh "c" in
      let I := fresh "I" in
      destruct (objectIdOf id) as [oid|] eqn:E;
      [assert (mongoose.isValid id = true) as I
         by (apply isValid_true; rewrite E; eauto);
       destruct (parsedBody req) as [payload|] eqn:B;
       [destruct (safeParse payload) as [data|issues] eqn:V;
        [destruct (available w) eqn:A;
         [destruct (mongoose.castCreatedAt (createdAt data)) as [c|] eqn:C;
          [rewrite (PUT_accepted w req id oid payload data c E B V A C);
           destruct (posts w !! oid) as [d|] eqn:L
          |rewrite (PUT_cast_fails w req id payload data I B V A C)]
         |rewrite (PUT_unavailable w req id payload data I B V A)]
        |rewrite (PUT_invalid w req id payload issues I B V)]
       |rewrite (PUT_not_json w req id I B)]
      |rewrite (PUT_malformed w req id (proj2 (isValid_false id) E))]
  end.


(** ** Listing *)

(** X1: with the connection available, listing is answered 200 with
    exactly the stored posts, each once, unfiltered and unpaginated, and
    the store is left as it was. *)
Theorem list_returns_every_post (w : World) :
  available w = true ->
  exists all w',
    Posts.GET w = (inr (NextResponse.json (AllPosts all) 200), w') /\
    posts w' = posts w /\
    length all = size (posts w) /\
    forall d, d ∈ all <-> exists oid, posts w !! oid = Some d.
Proof.
  intros A. rewrite (list_GET_available w A). eexists _, _.
  split; [reflexivity|]. split; [reflexivity|]. split.
  - rewrite length_map. apply length_map_to_list.
  - intros d. rewrite list_elem_of_fmap. split.
    + intros ([oid d'] & -> & M). exists oid.
      apply elem_of_map_to_list in M. exact M.
    + intros (oid & L). exists (oid, d). split; [reflexivity|].
      apply elem_of_map_to_list. exact L.
Qed.

Lemma list_returns_every_post_witness :
  available Sample.online = true /\
  exists all w',
    Posts.GET Sample.online =
      (inr (NextResponse.json (AllPosts all) 200), w') /\
    posts w' = posts Sample.online /\
    length all = size (posts Sample.online) /\
    forall d, d ∈ all <-> exists oid, posts Sample.online !! oid = Some d.
Proof.
  split; [reflexivity|].
  apply (list_returns_every_post Sample.online eq_refl).
Defined.



(** ** All operations *)

(** X3: every operation ends with a response, never with an exception
    left to the framework, and the status of that response is one of
    those the operation's swagger block lists. *)
Theorem statuses_are_documented `{Platform} (r : Request) (w : World) :
  exists resp w', handler r w = (inr resp, w') /\ status resp ∈ documented r.
Proof.
  destruct r; simpl; branches; eexists _, _; (split; [reflexivity|]);
    simpl; repeat constructor.
Qed.

(** X4: an operation whose response does not report success (a status
    other than 200 and 201) has left the store exactly as it was. *)
Theorem failure_leaves_store `{Platform}
        (r : Request) (w w' : World) (resp : Response) :
  handler r w = (inr resp, w') ->
  succeeded resp = false ->
  posts w' = posts w.
Proof.
  destruct r; simpl; branches; intros [= <- <-] S;
    try discriminate S; try reflexivity.
  simpl. apply delete_id. assumption.
Qed.

Lemma failure_leaves_store_witness :
  posts (logged (FindByIdAndDelete Sample.otherId)
           (withConnection (logged Connect Sample.online))) =
  posts Sample.online.
Proof.
  apply (@failure_leaves_store Sample.casting (DeletePost Sample.otherId)
           Sample.online _ (NextResponse.json (Error "Post not found") 404));
    [vm_compute; reflexivity | reflexivity].
Defined.

(** X5: listing and fetching never change the store, whatever the
    identifier, the state of the connection and the answer. *)
Theorem reads_leave_store `{Platform} (w : World) (id : string) :
  posts (snd (Posts.GET w)) = posts w /\
  posts (snd (PostById.GET id w)) = posts w.
Proof. split; branches; reflexivity. Qed.

(** X6: an operation adds to the log of database accesses nothing, or
    the acquisition of the connection alone, or that acquisition followed
    by a single document operation: never a document operation before
    the connection was asked for, never two of them. *)
Theorem one_operation_per_request `{Platform} (r : Request) (w : World) :
  exists new,
    accesses (snd (handler r w)) = (accesses w ++ new)%list /\
    oneOperationAtMost new.
Proof.
  destruct r; simpl; branches; simpl;
    first
      [ exists []; split; [symmetry; apply app_nil_r | left; reflexivity]
      | exists [Connect]; split; [reflexivity | right; left; reflexivity]
      | eexists [Connect; _]; split;
        [rewrite <- app_assoc; reflexivity
        | right; right; eexists; split; [|reflexivity]; reflexivity] ].
Qed.

(** ** Fetching, deleting, and what follows *)

(** X7: with the connection available, fetching by an identifier that
    denotes a stored post is answered 200 with that post, and the store
    is left as it was. *)
Theorem fetch_returns_stored_post `{Platform}
        (w : World) (id : string) (oid : ObjectId) (d : Document) :
  available w = true ->
  objectIdOf id = Some oid ->
  posts w !! oid = Some d ->
  exists w',
    PostById.GET id w = (inr (NextResponse.json (OnePost d) 200), w') /\
    posts w' = posts w.
Proof.
  intros A E L. rewrite (GET_wellformed w id oid A E), L.
  eexists. split; reflexivity.
Qed.

Lemma fetch_returns_stored_post_witness :
  available Sample.online = true /\
  @objectIdOf Sample.casting Sample.helloId = Some 7%N /\
  posts Sample.online !! 7%N = Some Sample.hello /\
  exists w',
    @PostById.GET Sample.casting Sample.helloId Sample.online =
      (inr (NextResponse.json (OnePost Sample.hello) 200), w') /\
    posts w' = posts Sample.online.
Proof.
  repeat (split; [reflexivity|]).
  apply (@fetch_returns_stored_post Sample.casting Sample.online Sample.helloId
           7%N Sample.hello eq_refl eq_refl eq_refl).
Defined.

(** X8: with the connection available, deleting by an identifier that
    denotes a stored post is answered 200 with that post as it was
    stored; the post is gone from the store, and every other post is
    still there unchanged. *)
Theorem delete_removes_only_that_post `{Platform}
        (w : World) (id : string) (oid : ObjectId) (d : Document) :
  available w = true ->
  objectIdOf id = Some oid ->
  posts w !! oid = Some d ->
  exists w',
    PostById.DELETE id w =
      (inr (NextResponse.json (Deleted "Post deleted successfully" d) 200), w') /\
    posts w' !! oid = None /\
    forall other, other <> oid -> posts w' !! other = posts w !! other.
Proof.
  intros A E L. rewrite (DELETE_wellformed w id oid A E), L.
  eexists. split; [reflexivity|]. simpl. split.
  - apply lookup_delete_eq.
  - intros other N. apply lookup_delete_ne. congruence.
Qed.

Lemma delete_removes_only_that_post_witness :
  available Sample.online = true /\
  @objectIdOf Sample.casting Sample.helloId = Some 7%N /\
  posts Sample.online !! 7%N = Some Sample.hello /\
  exists w',
    @PostById.DELETE Sample.casting Sample.helloId Sample.online =
      (inr (NextResponse.json
              (Deleted "Post deleted successfully" Sample.hello) 200), w') /\
    posts w' !! 7%N = None /\
    forall other, other <> 7%N -> posts w' !! other = posts Sample.online !! other.
Proof.
  repeat (split; [reflexivity|]).
  apply (@delete_removes_only_that_post Sample.casting Sample.online
           Sample.helloId 7%N Sample.hello eq_refl eq_refl eq_refl).
Defined.

(** X9: once a post has been deleted, fetching it and deleting it again,
    by any identifier string that denotes it, are both answered 404. *)
Theorem deleted_post_is_gone `{Platform}
        (w : World) (id again : string) (oid : ObjectId) (d : Document) :
  available w = true ->
  objectIdOf id = Some oid ->
  objectIdOf again = Some oid ->
  posts w !! oid = Some d ->
  answers 404 (PostById.GET again) (snd (PostById.DELETE id w)) /\
  answers 404 (PostById.DELETE again) (snd (PostById.DELETE id w)).
Proof.
  intros A E E' L. rewrite (DELETE_wellformed w id oid A E). simpl.
  set (w1 := withPosts _ _).
  assert (available w1 = true) as A1 by reflexivity.
  assert (posts w1 !! oid = None) as L1 by apply lookup_delete_eq.
  split.
  - eexists _, _. rewrite (GET_wellformed w1 again oid A1 E'), L1.
    split; reflexivity.
  - eexists _, _. rewrite (DELETE_wellformed w1 again oid A1 E'), L1.
    split; reflexivity.
Qed.

Lemma deleted_post_is_gone_witness :
  available Sample.online = true /\
  @objectIdOf Sample.casting Sample.helloId = Some 7%N /\
  posts Sample.online !! 7%N = Some Sample.hello /\
  answers 404 (@PostById.GET Sample.casting Sample.helloId)
    (snd (@PostById.DELETE Sample.casting Sample.helloId Sample.online)) /\
  answers 404 (@PostById.DELETE Sample.casting Sample.helloId)
    (snd (@PostById.DELETE Sample.casting Sample.helloId Sample.online)).
Proof.
  repeat (split; [reflexivity|]).
  apply (@deleted_post_is_gone Sample.casting Sample.online Sample.helloId
           Sample.helloId 7%N Sample.hello eq_refl eq_refl eq_refl eq_refl).
Defined.

(** ** Creating, and what follows *)

(** X10: deleting a post right after it was created, by an identifier
    string that denotes the identifier it was given, is answered 200 with
    the post as created and brings the store back to what it was before
    the creation. *)
Theorem create_then_delete_restores `{Platform}
        (w : World) (req : NextRequest) (payload : json) (data : PostInput)
        (id : string) :
  available w = true ->
  parsedBody req = Some payload ->
  safeParse payload = Success data ->
  objectIdOf id = Some (_id (created data w)) ->
  exists w'',
    PostById.DELETE id (snd (Posts.POST req w)) =
      (inr (NextResponse.json
              (Deleted "Post deleted successfully" (created data w)) 200), w'') /\
    posts w'' = posts w.
Proof.
  intros A B V E. rewrite (POST_accepted w req payload data B V A). simpl.
  set (w1 := withPosts _ _).
  assert (available w1 = true) as A1 by reflexivity.
  rewrite (DELETE_wellformed w1 id _ A1 E). simpl.
  rewrite lookup_insert_eq. eexists. split; [reflexivity|]. simpl.
  apply delete_insert_id. exact (created_is_new data w).
Qed.

Lemma create_then_delete_restores_witness :
  let payload := Sample.object "Bob" "T" "D" "https://x.org/i" "yesterday" in
  let data := {| author := "Bob"; title := "T"; description := "D";
                 imageUrl := "https://x.org/i"; createdAt := "yesterday" |} in
  available Sample.online = true /\
  @safeParse Sample.casting payload = Success data /\
  @objectIdOf Sample.casting "000000000000000000000008" =
    Some (_id (created data Sample.online)) /\
  exists w'',
    @PostById.DELETE Sample.casting "000000000000000000000008"
      (snd (@Posts.POST Sample.casting (Sample.sending payload) Sample.online)) =
      (inr (NextResponse.json
              (Deleted "Post deleted successfully" (created data Sample.online))
              200), w'') /\
    posts w'' = posts Sample.online.
Proof.
  intros payload data. split; [reflexivity|]. split; [reflexivity|].
  split; [vm_compute; reflexivity|].
  apply (@create_then_delete_restores Sample.casting Sample.online
           (Sample.sending payload) payload data "000000000000000000000008"
           eq_refl eq_refl eq_refl).
  vm_compute. reflexivity.
Defined.

(** X11: a successful creation adds exactly one post: every post that
    was stored is still stored under its identifier, unchanged, and the
    store holds one post more. *)
Theorem create_keeps_existing_posts `{Platform}
        (w : World) (req : NextRequest) (payload : json) (data : PostInput) :
  available w = true ->
  parsedBody req = Some payload ->
  safeParse payload = Success data ->
  size (posts (snd (Posts.POST req w))) = S (size (posts w)) /\
  forall oid d, posts w !! oid = Some d ->
                posts (snd (Posts.POST req w)) !! oid = Some d.
Proof.
  intros A B V. rewrite (POST_accepted w req payload data B V A). simpl.
  pose proof (created_is_new data w) as F. split.
  - apply map_size_insert_None, F.
  - intros oid d L. rewrite lookup_insert_ne; [exact L|].
    simpl in F. intros Eq. rewrite Eq in F. rewrite F in L. discriminate L.
Qed.

Lemma create_keeps_existing_posts_witness :
  let payload := Sample.object "Bob" "T" "D" "https://x.org/i" "yesterday" in
  let data := {| author := "Bob"; title := "T"; description := "D";
                 imageUrl := "https://x.org/i"; createdAt := "yesterday" |} in
  available Sample.online = true /\
  @safeParse Sample.casting payload = Success data /\
  size (posts (snd (@Posts.POST Sample.casting (Sample.sending payload)
                      Sample.online))) = S (size (posts Sample.online)) /\
  forall oid d, posts Sample.online !! oid = Some d ->
                posts (snd (@Posts.POST Sample.casting (Sample.sending payload)
                              Sample.online)) !! oid = Some d.
Proof.
  intros payload data. split; [reflexivity|]. split; [reflexivity|].
  apply (@create_keeps_existing_posts Sample.casting Sample.online
           (Sample.sending payload) payload data eq_refl eq_refl eq_refl).
Defined.

(** X12: listing right after a successful creation is answered 200 with
    a list that holds the post just created and every post that was
    stored before. *)
Theorem create_then_list `{Platform}
        (w : World) (req : NextRequest) (payload : json) (data : PostInput) :
  available w = true ->
  parsedBody req = Some payload ->
  safeParse payload = Success data ->
  exists all w'',
    Posts.GET (snd (Posts.POST req w)) =
      (inr (NextResponse.json (AllPosts all) 200), w'') /\
    created data w ∈ all /\
    forall oid d, posts w !! oid = Some d -> d ∈ all.
Proof.
  intros A B V. rewrite (POST_accepted w req payload data B V A). simpl.
  set (w1 := withPosts _ _).
  assert (available w1 = true) as A1 by reflexivity.
  rewrite (list_GET_available w1 A1). eexists _, _. split; [reflexivity|].
  pose proof (created_is_new data w) as F. split.
  - apply list_elem_of_fmap. exists (_id (created data w), created data w).
    split; [reflexivity|]. apply elem_of_map_to_list. apply lookup_insert_eq.
  - intros oid d L. apply list_elem_of_fmap. exists (oid, d).
    split; [reflexivity|]. apply elem_of_map_to_list. simpl.
    rewrite lookup_insert_ne; [exact L|].
    simpl in F. intros Eq. rewrite Eq in F. rewrite F in L. discriminate L.
Qed.

Lemma create_then_list_witness :
  let payload := Sample.object "Bob" "T" "D" "https://x.org/i" "yesterday" in
  let data := {| author := "Bob"; title := "T"; description := "D";
                 imageUrl := "https://x.org/i"; createdAt := "yesterday" |} in
  available Sample.online = true /\
  @safeParse Sample.casting payload = Success data /\
  exists all w'',
    Posts.GET (snd (@Posts.POST Sample.casting (Sample.sending payload)
                      Sample.online)) =
      (inr (NextResponse.json (AllPosts all) 200), w'') /\
    created data Sample.online ∈ all /\
    forall oid d, posts Sample.online !! oid = Some d -> d ∈ all.
Proof.
  intros payload data. split; [reflexivity|]. split; [reflexivity|].
  apply (@create_then_list Sample.casting Sample.online
           (Sample.sending payload) payload data eq_refl eq_refl eq_refl).
Defined.

(** ** Updating, and what follows *)

(** X13: an update never creates a post and never touches another one:
    whatever the request and its outcome, the store holds posts under
    the same identifiers as before, and every post under an identifier
    other than the one the path denotes is unchanged. *)
Theorem update_never_creates `{Platform}
        (w : World) (req : NextRequest) (id : string) :
  dom (posts (snd (PostById.PUT req id w))) = dom (posts w) /\
  forall other, objectIdOf id <> Some other ->
    posts (snd (PostById.PUT req id w)) !! other = posts w !! other.
Proof.
  branches; simpl; split; try reflexivity.
  - apply dom_insert_lookup_L. eauto.
  - intros other N. apply lookup_insert_ne. congruence.
Qed.

(** X14: sending the same accepted update again, however much later,
    is answered 200 again with the post the first update returned,
    changed in nothing but [updatedAt], which is the time of the second
    update; that post takes the place of the first one in the store, and
    nothing else in the store changes. *)
Theorem update_again_only_restamps `{Platform}
        (w : World) (req : NextRequest) (id : string) (oid : ObjectId)
        (old : Document) (payload : json) (data : PostInput) (later : Date) :
  available w = true ->
  objectIdOf id = Some oid ->
  posts w !! oid = Some old ->
  parsedBody req = Some payload ->
  safeParse payload = Success data ->
  mongoose.castCreatedAt (createdAt data) <> None ->
  exists d w' w'',
    PostById.PUT req id w =
      (inr (NextResponse.json (Updated "Post updated successfully" d) 200), w') /\
    doc_updatedAt d = clock w /\
    PostById.PUT req id (step w' (Tick later)) =
      (inr (NextResponse.json
              (Updated "Post updated successfully" (restamped later d)) 200),
       w'') /\
    posts w'' = <[oid := restamped later d]> (posts w') /\
    posts w'' = <[oid := restamped later d]> (posts w).
Proof.
  intros A E L B V C.
  destruct (mongoose.castCreatedAt (createdAt data)) as [c|] eqn:C'; [|done].
  rewrite (PUT_accepted w req id oid payload data c E B V A C'), L. simpl.
  eexists _, _, _. split; [reflexivity|]. split; [reflexivity|].
  match goal with |- context [PostById.PUT req id ?x] => set (w1 := x) end.
  assert (available w1 = true) as A1 by reflexivity.
  rewrite (PUT_accepted w1 req id oid payload data c E B V A1 C'). simpl.
  rewrite lookup_insert_eq. simpl.
  assert (default (default (doc_createdAt old) c) c = default (doc_createdAt old) c)
    as -> by (destruct c; reflexivity).
  split; [reflexivity|]. split; [reflexivity|]. apply insert_insert_eq.
Qed.

Lemma update_again_only_restamps_witness :
  let payload := Sample.object "Bob" "T" "D" "https://x.org/i"
                   "2023-01-01T00:00:00.000Z" in
  let req := Sample.sending payload in
  let data := {| author := "Bob"; title := "T"; description := "D";
                 imageUrl := "https://x.org/i";
                 createdAt := "2023-01-01T00:00:00.000Z" |} in
  available Sample.online = true /\
  @objectIdOf Sample.owning Sample.helloId = Some 7%N /\
  posts Sample.online !! 7%N = Some Sample.hello /\
  @safeParse Sample.owning payload = Success data /\
  @mongoose.castCreatedAt Sample.owning (createdAt data) <> None /\
  exists d w' w'',
    @PostById.PUT Sample.owning req Sample.helloId Sample.online =
      (inr (NextResponse.json (Updated "Post updated successfully" d) 200), w') /\
    doc_updatedAt d = clock Sample.online /\
    @PostById.PUT Sample.owning req Sample.helloId
      (@step Sample.owning w' (Tick 6)) =
      (inr (NextResponse.json
              (Updated "Post updated successfully" (restamped 6 d)) 200),
       w'') /\
    posts w'' = <[7%N := restamped 6 d]> (posts w') /\
    posts w'' = <[7%N := restamped 6 d]> (posts Sample.online).
Proof.
  intros payload req data.
  repeat (split; [reflexivity|]). split; [discriminate|].
  apply (@update_again_only_restamps Sample.owning Sample.online req
           Sample.helloId 7%N Sample.hello payload data 6);
    solve [reflexivity | discriminate].
Defined.

(** X15: fetching a post right after an accepted update of it, by any
    identifier string that denotes it, is answered 200 with the very post
    the update returned. *)
Theorem update_then_fetch `{Platform}
        (w : World) (req : NextRequest) (id again : string) (oid : ObjectId)
        (old : Document) (payload : json) (data : PostInput) :
  available w = true ->
  objectIdOf id = Some oid ->
  objectIdOf again = Some oid ->
  posts w !! oid = Some old ->
  parsedBody req = Some payload ->
  safeParse payload = Success data ->
  mongoose.castCreatedAt (createdAt data) <> None ->
  exists d w' w'',
    PostById.PUT req id w =
      (inr (NextResponse.json (Updated "Post updated successfully" d) 200), w') /\
    PostById.GET again w' = (inr (NextResponse.json (OnePost d) 200), w'').
Proof.
  intros A E E' L B V C.
  destruct (mongoose.castCreatedAt (createdAt data)) as [c|] eqn:C'; [|done].
  rewrite (PUT_accepted w req id oid payload data c E B V A C'), L. simpl.
  eexists _, _, _. split; [reflexivity|].
  erewrite GET_wellformed; [|reflexivity|exact E'].
  simpl. rewrite lookup_insert_eq. reflexivity.
Qed.

Lemma update_then_fetch_witness :
  let payload := Sample.object "Bob" "T" "D" "https://x.org/i"
                   "2023-01-01T00:00:00.000Z" in
  let req := Sample.sending payload in
  let data := {| author := "Bob"; title := "T"; description := "D";
                 imageUrl := "https://x.org/i";
                 createdAt := "2023-01-01T00:00:00.000Z" |} in
  available Sample.online = true /\
  @objectIdOf Sample.casting Sample.helloId = Some 7%N /\
  posts Sample.online !! 7%N = Some Sample.hello /\
  @safeParse Sample.casting payload = Success data /\
  @mongoose.castCreatedAt Sample.casting (createdAt data) <> None /\
  exists d w' w'',
    @PostById.PUT Sample.casting req Sample.helloId Sample.online =
      (inr (NextResponse.json (Updated "Post updated successfully" d) 200), w') /\
    @PostById.GET Sample.casting Sample.helloId w' =
      (inr (NextResponse.json (OnePost d) 200), w'').
Proof.
  intros payload req data.
  repeat (split; [reflexivity|]). split; [discriminate|].
  apply (@update_then_fetch Sample.casting Sample.online req
           Sample.helloId Sample.helloId 7%N Sample.hello payload data);
    solve [reflexivity | discriminate].
Defined.

(** ** The validator, seen from the handlers *)

(** X16: the validator accepts a body exactly when it is an object whose
    author, title, description, imageUrl and createdAt are strings, the
    first three not empty and imageUrl a valid URL; createdAt may be any
    string, and the data handed on are those five strings. *)
Theorem validator_accepts_exactly `{Platform} (payload : json) (data : PostInput) :
  safeParse payload = Success data <->
  exists props,
    payload = JObject props /\
    getProp "author" props = Some (JString (author data)) /\
    author data <> "" /\
    getProp "title" props = Some (JString (title data)) /\
    title data <> "" /\
    getProp "description" props = Some (JString (description data)) /\
    description data <> "" /\
    getProp "imageUrl" props = Some (JString (imageUrl data)) /\
    isUrl (imageUrl data) = true /\
    getProp "createdAt" props = Some (JString (createdAt data)).
Proof. apply safeParse_Success. Qed.

Section Stripping.
Context `{Platform}.

Lemma sameFields_safeParse (p q : list (string * json)) :
  sameFields p q -> safeParse (JObject p) = safeParse (JObject q).
Proof.
  intros S.
  assert (forall name, name ∈ requiredFields ->
                       forall checks, zString checks name p = zString checks name q)
    as Z by (intros name M checks; unfold zString; rewrite (S name M); reflexivity).
  unfold safeParse.
  rewrite (Z "author"), (Z "title"), (Z "description"), (Z "imageUrl"),
    (Z "createdAt") by (unfold requiredFields; repeat constructor).
  reflexivity.
Qed.

(** Each property of the schema raises at most one issue, on its own
    name. *)
Lemma zString_inl (key : string) (checks : list StringCheck)
      (props : list (string * json)) (issues : list ZodIssue) :
  (key, checks) ∈ shape ->
  zString checks key props = inl issues ->
  exists issue, issues = [issue] /\ path issue = [key].
Proof.
  intros M Z. unfold zString in Z.
  destruct (getProp key props) as [v|]; [destruct v|];
    try (injection Z as <-; eexists; split; reflexivity).
  unfold shape in M. rewrite !elem_of_cons, elem_of_nil in M.
  destruct M as [M|[M|[M|[M|[M|[]]]]]]; injection M as -> ->.
  - destruct s; simpl in Z; [|discriminate].
    injection Z as <-; eexists; split; reflexivity.
  - destruct s; simpl in Z; [|discriminate].
    injection Z as <-; eexists; split; reflexivity.
  - destruct s; simpl in Z; [|discriminate].
    injection Z as <-; eexists; split; reflexivity.
  - simpl in Z. destruct (isUrl s); [discriminate|].
    injection Z as <-; eexists; split; reflexivity.
  - discriminate.
Qed.

End Stripping.

(** X17: properties outside the schema have no effect: two object bodies
    with the same values under author, title, description, imageUrl and
    createdAt are treated alike by creation and by update, in the answer
    and in what is stored. *)
Theorem other_properties_are_ignored `{Platform}
        (w : World) (id : string) (p q : list (string * json)) :
  sameFields p q ->
  Posts.POST {| parsedBody := Some (JObject p) |} w =
    Posts.POST {| parsedBody := Some (JObject q) |} w /\
  PostById.PUT {| parsedBody := Some (JObject p) |} id w =
    PostById.PUT {| parsedBody := Some (JObject q) |} id w.
Proof.
  intros S. apply sameFields_safeParse in S.
  unfold Posts.POST, PostById.PUT. run. cbn [parsedBody]. rewrite S.
  split; reflexivity.
Qed.

Lemma other_properties_are_ignored_witness :
  let p := [("author", JString "Bob"); ("title", JString "T");
            ("description", JString "D"); ("imageUrl", JString "https://x.org/i");
            ("createdAt", JString "yesterday")] in
  let q := ("_id", JString Sample.otherId) :: ("updatedAt", JNumber "0") :: p in
  sameFields p q /\
  @Posts.POST Sample.casting {| parsedBody := Some (JObject p) |} Sample.online =
    @Posts.POST Sample.casting {| parsedBody := Some (JObject q) |} Sample.online /\
  @PostById.PUT Sample.casting {| parsedBody := Some (JObject p) |}
    Sample.helloId Sample.online =
    @PostById.PUT Sample.casting {| parsedBody := Some (JObject q) |}
      Sample.helloId Sample.online.
Proof.
  intros p q.
  assert (sameFields p q) as S.
  { intros name M. unfold requiredFields in M.
    rewrite !elem_of_cons, elem_of_nil in M.
    destruct M as [->|[->|[->|[->|[->|[]]]]]]; reflexivity. }
  split; [exact S|].
  apply (@other_properties_are_ignored Sample.casting Sample.online
           Sample.helloId p q S).
Defined.

(** X18: when an object body fails validation, creation is answered 400
    with an error list that is not empty and whose fields, in order, are
    names of the schema in the order of the schema, none named twice. *)
Theorem validation_errors_follow_schema `{Platform}
        (w : World) (req : NextRequest) (props : list (string * json))
        (issues : list ZodIssue) :
  parsedBody req = Some (JObject props) ->
  safeParse (JObject props) = Failure issues ->
  exists errors,
    Posts.POST req w = (inr (NextResponse.json (Errors errors) 400), w) /\
    errors <> [] /\
    map field errors `sublist_of` map Some requiredFields.
Proof.
  intros B V. rewrite (POST_invalid w req _ issues B V).
  eexists. split; [reflexivity|]. rewrite map_map. simpl.
  unfold safeParse in V.
  destruct (zString [min 1] "author" props) as [ia|] eqn:Za;
    [apply zString_inl in Za as (ja & -> & Pa);
     [|unfold shape; repeat constructor]|];
  (destruct (zString [min 1] "title" props) as [it|] eqn:Zt;
    [apply zString_inl in Zt as (jt & -> & Pt);
     [|unfold shape; repeat constructor]|]);
  (destruct (zString [min 1] "description" props) as [id|] eqn:Zd;
    [apply zString_inl in Zd as (jd & -> & Pd);
     [|unfold shape; repeat constructor]|]);
  (destruct (zString [url] "imageUrl" props) as [ii|] eqn:Zi;
    [apply zString_inl in Zi as (ji & -> & Pi);
     [|unfold shape; repeat constructor]|]);
  (destruct (zString [] "createdAt" props) as [ic|] eqn:Zc;
    [apply zString_inl in Zc as (jc & -> & Pc);
     [|unfold shape; repeat constructor]|]);
  try discriminate V; injection V as <-; simpl;
  repeat match goal with P : path _ = _ |- _ => rewrite P; clear P end;
  (split; [discriminate|]); simpl; unfold requiredFields; simpl;
  repeat first [apply sublist_nil | apply sublist_skip | apply sublist_cons].
Qed.

Lemma validation_errors_follow_schema_witness :
  let props := [("title", JNumber "3"); ("imageUrl", JString "nowhere");
                ("author", JString "Bob")] in
  let issues := [invalidType "string" ["title"] (Some (JNumber "3"));
                 invalidType "string" ["description"] None;
                 {| code := invalid_string; path := ["imageUrl"];
                    message := "Invalid url" |};
                 invalidType "string" ["createdAt"] None] in
  @safeParse Sample.casting (JObject props) = Failure issues /\
  exists errors,
    @Posts.POST Sample.casting (Sample.sending (JObject props)) Sample.online =
      (inr (NextResponse.json (Errors errors) 400), Sample.online) /\
    errors <> [] /\
    map field errors `sublist_of` map Some requiredFields.
Proof.
  intros props issues. split; [vm_compute; reflexivity|].
  apply (@validation_errors_follow_schema Sample.casting Sample.online
           (Sample.sending (JObject props)) props issues eq_refl).
  vm_compute. reflexivity.
Defined.

(** X19: a body that is JSON but not an object (null, a number, a
    string, an array) is answered 400 by creation with a single error
    whose field is undefined and whose message names the type received;
    the world is left as it was. *)
Theorem create_non_object_body `{Platform}
        (w : World) (req : NextRequest) (payload : json) :
  parsedBody req = Some payload ->
  (forall props, payload <> JObject props) ->
  Posts.POST req w =
    (inr (NextResponse.json
            (Errors [ {| field := None;
                         fe_message := "Expected object, received " ++
                                       parsedType (Some payload) |} ]) 400), w).
Proof.
  intros B N. rewrite (POST_invalid w req payload
                         [invalidType "object" [] (Some payload)] B).
  - reflexivity.
  - destruct payload; try reflexivity. destruct (N props eq_refl).
Qed.

Lemma create_non_object_body_witness :
  (forall props, JArray [] <> JObject props) /\
  @Posts.POST Sample.casting (Sample.sending (JArray [])) Sample.online =
    (inr (NextResponse.json
            (Errors [ {| field := None;
                         fe_message := "Expected object, received " ++
                                       parsedType (Some (JArray [])) |} ]) 400),
     Sample.online).
Proof.
  assert (forall props, JArray [] <> JObject props) as N by discriminate.
  split; [exact N|].
  apply (@create_non_object_body Sample.casting Sample.online
           (Sample.sending (JArray [])) (JArray []) eq_refl N).
Defined.

(** ** What an answer tells the caller *)

(** X20: an update with a well-formed identifier whose body is not JSON
    is answered 500 with the fixed message, whether or not a post is
    stored under the identifier; the database is not reached for and the
    world is left as it was. *)
Theorem update_unparseable_body `{Platform}
        (w : World) (req : NextRequest) (id : string) (oid : ObjectId) :
  objectIdOf id = Some oid ->
  parsedBody req = None ->
  PostById.PUT req id w =
    (inr (NextResponse.json (Error "Internal server error") 500), w).
Proof.
  intros E B. apply PUT_not_json; [|exact B].
  apply isValid_true. rewrite E. eauto.
Qed.

Lemma update_unparseable_body_witness :
  @objectIdOf Sample.casting Sample.helloId = Some 7%N /\
  @PostById.PUT Sample.casting {| parsedBody := None |} Sample.helloId
    Sample.online =
    (inr (NextResponse.json (Error "Internal server error") 500), Sample.online).
Proof.
  split; [reflexivity|].
  apply (@update_unparseable_body Sample.casting Sample.online
           {| parsedBody := None |} Sample.helloId 7%N eq_refl eq_refl).
Defined.

(** X21: a 404 is never given lightly: when fetch, update or delete
    answers 404, the identifier is well-formed, the connection was
    available, no post was stored under the identifier, and the store is
    left as it was; for an update, the payload had passed validation. *)
Theorem not_found_is_truthful `{Platform}
        (r : Request) (w w' : World) (resp : Response) :
  handler r w = (inr resp, w') ->
  status resp = 404%Z ->
  exists id oid,
    (r = FetchPost id \/ r = DeletePost id \/
     exists req payload data,
       r = UpdatePost req id /\ parsedBody req = Some payload /\
       safeParse payload = Success data) /\
    objectIdOf id = Some oid /\ available w = true /\
    posts w !! oid = None /\ posts w' = posts w.
Proof.
  destruct r as [|req|id|req id|id]; simpl; branches; intros [= <- <-] S;
    try discriminate S.
  - exists id, oid. repeat split; auto.
  - exists id, oid. repeat split; eauto 10.
  - exists id, oid. repeat split; auto. simpl. apply delete_id. assumption.
Qed.

Lemma not_found_is_truthful_witness :
  exists id oid,
    (FetchPost Sample.otherId = FetchPost id \/
     FetchPost Sample.otherId = DeletePost id \/
     exists req payload data,
       FetchPost Sample.otherId = UpdatePost req id /\
       parsedBody req = Some payload /\
       @safeParse Sample.casting payload = Success data) /\
    @objectIdOf Sample.casting id = Some oid /\ available Sample.online = true /\
    posts Sample.online !! oid = None /\
    posts (logged (FindById Sample.otherId)
             (withConnection (logged Connect Sample.online))) =
      posts Sample.online.
Proof.
  apply (@not_found_is_truthful Sample.casting (FetchPost Sample.otherId)
           Sample.online _ (NextResponse.json (Text "Post not found") 404));
    [vm_compute; reflexivity | reflexivity].
Defined.

(** X22: when a fetch answers 200, its body is the post stored under the
    identifier the path denotes, and the store is left as it was. *)
Theorem fetched_post_is_stored `{Platform}
        (w w' : World) (id : string) (resp : Response) :
  PostById.GET id w = (inr resp, w') ->
  status resp = 200%Z ->
  exists oid d,
    objectIdOf id = Some oid /\ posts w !! oid = Some d /\
    body resp = OnePost d /\ posts w' = posts w.
Proof.
  branches; intros [= <- <-] S; try discriminate S.
  exists oid, d. repeat split; auto.
Qed.

Lemma fetched_post_is_stored_witness :
  exists oid d,
    @objectIdOf Sample.casting Sample.helloId = Some oid /\
    posts Sample.online !! oid = Some d /\
    body (NextResponse.json (OnePost Sample.hello) 200) = OnePost d /\
    posts (logged (FindById Sample.helloId)
             (withConnection (logged Connect Sample.online))) =
      posts Sample.online.
Proof.
  apply (@fetched_post_is_stored Sample.casting Sample.online _ Sample.helloId
           (NextResponse.json (OnePost Sample.hello) 200));
    [vm_compute; reflexivity | reflexivity].
Defined.

(** X23: a creation is answered 201 only when the body passed the
    validator and the post built from it has been stored, under an
    identifier no post had, with the store otherwise as it was. *)
Theorem created_means_stored `{Platform}
        (w w' : World) (req : NextRequest) (resp : Response) :
  Posts.POST req w = (inr resp, w') ->
  status resp = 201%Z ->
  exists payload data,
    parsedBody req = Some payload /\ safeParse payload = Success data /\
    posts w !! _id (created data w) = None /\
    posts w' = <[_id (created data w) := created data w]> (posts w).
Proof.
  branches; intros [= <- <-] S; try discriminate S.
  exists payload, data. repeat split; auto. apply created_is_new.
Qed.

Lemma created_means_stored_witness :
  let payload := Sample.object "Bob" "T" "D" "https://x.org/i" "yesterday" in
  let req := Sample.sending payload in
  exists payload data,
    parsedBody req = Some payload /\
    @safeParse Sample.casting payload = Success data /\
    posts Sample.online !! _id (created data Sample.online) = None /\
    posts (snd (@Posts.POST Sample.casting req Sample.online)) =
      <[_id (created data Sample.online) := created data Sample.online]>
        (posts Sample.online).
Proof.
  intros payload req.
  apply (@created_means_stored Sample.casting Sample.online _ req
           (NextResponse.json (Text "Post has been created") 201));
    [vm_compute; reflexivity | reflexivity].
Defined.
